(** * gormer: generic data-access helpers over a gorm handle

    A shallow embedding of [pkg/gormer.go] (module [Pkg]) and of the
    earlier iteration of the same file kept in the repository (module
    [Earlier]), followed by the properties proved about them.

    Layout:
    - [Go]      : the fragments of the Go language the code relies on
                  (wrapping [int], [error] values, nil-able slices, panics,
                  pointers to heap cells);
    - [slog]    : the warning log;
    - [gorm]    : the store client, kept abstract: a handle is the sequence
                  of clauses chained onto it, and a [Store] answers the
                  finisher calls;
    - [Order], [Where], [QueryListResult] : the types both iterations share;
    - [Pkg], [Earlier] : the configurations, their builders and the query
                  engine of each iteration;
    - [Spec]    : the queries and results in the words of the
                  specification, to compare the code with;
    - [MemStore]: a small in-memory store used to run the code on concrete
                  inputs. *)

From Stdlib Require Import ZArith String List Lia.
From stdpp Require Import base option list gmap strings.

Local Open Scope string_scope.
Local Open Scope list_scope.
Local Open Scope Z_scope.

(* ===================================================================== *)
(** ** Go *)
(* ===================================================================== *)

Module Go.

(** [int] is a 64-bit two's complement integer; arithmetic wraps. *)
Definition int_bits : Z := 64.
Definition wrap (z : Z) : Z :=
  (z + 2 ^ (int_bits - 1)) mod 2 ^ int_bits - 2 ^ (int_bits - 1).
Definition in_int (z : Z) : Prop :=
  - 2 ^ (int_bits - 1) <= z < 2 ^ (int_bits - 1).
Definition int_sub (a b : Z) : Z := wrap (a - b).
Definition int_mul (a b : Z) : Z := wrap (a * b).

(** Error values.  [ErrorString] is what [errors.New] and [fmt.Errorf]
    without [%w] build, [Wrapped] what [fmt.Errorf] with [%w] builds;
    [ErrRecordNotFound] is gorm's sentinel.  The code only compares errors
    against that sentinel, so other errors are identified by their text. *)
Inductive error : Type :=
| ErrorString (msg : string)
| ErrRecordNotFound
| Wrapped (msg : string) (inner : error).

Definition Error (e : error) : string :=
  match e with
  | ErrorString msg => msg
  | ErrRecordNotFound => "record not found"
  | Wrapped msg _ => msg
  end.

(** [errors.Is(e, gorm.ErrRecordNotFound)]: walks the chain of wrapped
    errors looking for the sentinel. *)
Fixpoint errors_Is_ErrRecordNotFound (e : error) : bool :=
  match e with
  | ErrRecordNotFound => true
  | ErrorString _ => false
  | Wrapped _ inner => errors_Is_ErrRecordNotFound inner
  end.

(** [fmt.Errorf(msg)] with no verbs. *)
Definition Errorf (msg : string) : error := ErrorString msg.

(** [fmt.Sprintf("%s %s", a, b)]. *)
Definition Sprintf_s_s (a b : string) : string := a +:+ " " +:+ b.

(** A slice is nil or holds elements; [range] over a nil slice runs no
    iteration.  Each slice of a configuration owns its backing array (the
    package only ever reassigns the field with the result of [append]),
    so a slice is modelled by its contents. *)
Definition slice (A : Type) : Type := option (list A).

Definition range {A} (s : slice A) : list A := default [] s.

(** [append(s, xs...)]: nil stays nil when nothing is appended. *)
Definition append {A} (s xs : slice A) : slice A :=
  match s, range xs with
  | None, [] => None
  | _, l => Some (range s ++ l)
  end.

(** The result of running Go code: it returns, or it panics (here always a
    nil pointer dereference). *)
Inductive Outcome (A : Type) : Type :=
| Ret (a : A)
| Panic.
Arguments Ret {A} a.
Arguments Panic {A}.

(** Code that reads and writes a state [S] and may panic. *)
Definition M (S A : Type) : Type := S -> Outcome (A * S).

#[global] Instance M_ret {S} : MRet (M S) := fun A a s => Ret (a, s).
#[global] Instance M_bind {S} : MBind (M S) := fun A B f m s =>
  match m s with
  | Ret (a, s') => f a s'
  | Panic => Panic
  end.

Definition panic {S A} : M S A := fun _ => Panic.

(** Reading through a pointer: nil panics. *)
Definition deref {S A} (p : option A) : M S A :=
  match p with
  | Some a => mret a
  | None => panic
  end.

(** A pointer to a heap-allocated struct; [None] is nil. *)
Definition ptr : Type := option positive.

(** [p.F = e] where [e] may read the fields of [*p]: the cell is rewritten
    in place; a nil [p] panics.  (A pointer to a cell that was never
    allocated does not arise in Go; it is treated like nil.) *)
Definition modify {V : Type} (p : ptr) (f : V -> V) : M (gmap positive V) unit :=
  fun h =>
    match p with
    | None => Panic
    | Some l => match h !! l with
                | Some v => Ret (tt, <[l := f v]> h)
                | None => Panic
                end
    end.

(** [&S{...}]: a fresh cell holding [v]. *)
Definition alloc {V : Type} (v : V) : M (gmap positive V) ptr :=
  fun h => let l := fresh (dom h) in Ret (Some l, <[l := v]> h).

End Go.

Import Go.

(* ===================================================================== *)
(** ** log/slog *)
(* ===================================================================== *)

Module slog.
Inductive Entry : Type := WARN (msg : string).
End slog.

(* ===================================================================== *)
(** ** gorm: the store client *)
(* ===================================================================== *)

(** gorm is not part of the package and is kept abstract.  A handle is the
    sequence of clauses chained onto it, and a [Store] decides what the
    finishers answer.  Handles are values: what is chained onto one handle
    does not show on another, which is what the package expects of the
    handles it is given.  A method called on a nil handle panics, since
    gorm's methods read their receiver. *)

Module gorm.

(** One chained call on a handle. *)
Inductive Clause (Arg : Type) : Type :=
| Model
| Where (query : string) (args : Arg)
| Preload (name : string)
| Order (value : string)
| Offset (n : Z)
| Limit (n : Z).
Arguments Model {Arg}.
Arguments Where {Arg} query args.
Arguments Preload {Arg} name.
Arguments Order {Arg} value.
Arguments Offset {Arg} n.
Arguments Limit {Arg} n.

(** What a handle has accumulated, in the order the calls were made. *)
Definition Statement (Arg : Type) : Type := list (Clause Arg).

(** [*gorm.DB]; [None] is the nil handle. *)
Definition DB (Arg : Type) : Type := option (Statement Arg).

(** The store behind the handles.  Every finisher reports the value it
    left in its output argument together with the [Error] field of the
    handle it returns, and the store's next state. *)
Record Store (T Arg : Type) : Type := {
  state : Type;
  do_Count : Statement Arg -> state -> (Z * option error) * state;
  do_Find : Statement Arg -> state -> (list T * option error) * state;
  do_First : Statement Arg -> state -> (T * option error) * state;
  do_Create : Statement Arg -> T -> state -> option error * state;
  do_Save : Statement Arg -> option T -> state -> option error * state;
  do_Delete : Statement Arg -> option T -> state -> option error * state
}.
Arguments state {T Arg} _.
Arguments do_Count {T Arg} _ _ _.
Arguments do_Find {T Arg} _ _ _.
Arguments do_First {T Arg} _ _ _.
Arguments do_Create {T Arg} _ _ _ _.
Arguments do_Save {T Arg} _ _ _ _.
Arguments do_Delete {T Arg} _ _ _ _.

(** The finisher calls made on the store, as a trace. *)
Inductive Call (T Arg : Type) : Type :=
| CallCount (s : Statement Arg)
| CallFind (s : Statement Arg)
| CallFirst (s : Statement Arg)
| CallCreate (s : Statement Arg) (t : T)
| CallSave (s : Statement Arg) (t : option T)
| CallDelete (s : Statement Arg) (t : option T).
Arguments CallCount {T Arg} s.
Arguments CallFind {T Arg} s.
Arguments CallFirst {T Arg} s.
Arguments CallCreate {T Arg} s t.
Arguments CallSave {T Arg} s t.
Arguments CallDelete {T Arg} s t.

(** Everything a call of the package can observe or change. *)
Record World {T Arg : Type} (st : Store T Arg) : Type := mkWorld {
  db_state : state st;
  calls : list (Call T Arg);
  log : list slog.Entry
}.
Arguments mkWorld {T Arg st} _ _ _.
Arguments db_state {T Arg st} _.
Arguments calls {T Arg st} _.
Arguments log {T Arg st} _.

Section Methods.
Context {T Arg : Type} {st : Store T Arg}.

(** Chain methods read the receiver, so they panic on a nil handle;
    otherwise they return a handle with one more clause. *)
Definition chain (c : Clause Arg) (db : DB Arg) : M (World st) (DB Arg) :=
  s ← deref db; mret (Some (s ++ [c])).

(** The world after the store moved to [sigma] answering the calls [cs]. *)
Definition after (w : World st) (sigma : state st) (cs : list (Call T Arg)) : World st :=
  mkWorld sigma (calls w ++ cs) (log w).

(** The world after the entries [l] were logged. *)
Definition add_log (w : World st) (l : list slog.Entry) : World st :=
  mkWorld (db_state w) (calls w) (log w ++ l).

(** A finisher on a handle: asks the store and records the call. *)
Definition finish {R : Type}
    (run : Statement Arg -> state st -> R * state st)
    (call : Statement Arg -> Call T Arg)
    (db : DB Arg) : M (World st) R :=
  fun w =>
    match db with
    | None => Panic
    | Some s =>
        let '(r, sigma) := run s (db_state w) in
        Ret (r, after w sigma [call s])
    end.

Definition Count : DB Arg -> M (World st) (Z * option error) :=
  finish (do_Count st) CallCount.
Definition Find : DB Arg -> M (World st) (list T * option error) :=
  finish (do_Find st) CallFind.
Definition First : DB Arg -> M (World st) (T * option error) :=
  finish (do_First st) CallFirst.
Definition Create (db : DB Arg) (t : T) : M (World st) (option error) :=
  finish (fun s => do_Create st s t) (fun s => CallCreate s t) db.
Definition Save (db : DB Arg) (t : option T) : M (World st) (option error) :=
  finish (fun s => do_Save st s t) (fun s => CallSave s t) db.
Definition Delete (db : DB Arg) (t : option T) : M (World st) (option error) :=
  finish (fun s => do_Delete st s t) (fun s => CallDelete s t) db.

(** [slog.Warn(msg)]. *)
Definition Warn (msg : string) : M (World st) unit :=
  fun w => Ret (tt, add_log w [slog.WARN msg]).

End Methods.

End gorm.


(* ===================================================================== *)
(** ** Types shared by both iterations of the package *)
(* ===================================================================== *)

(** [type Order int] with [DESC = 0] and [ASC = 1]; every other value prints
    as "desc". *)
Module Order.
Definition t : Type := Z.
Definition DESC : t := 0.
Definition ASC : t := 1.
Definition String (o : t) : string :=
  if Z.eqb o ASC then "asc" else "desc".
End Order.

Module Where.
Record t (Arg : Type) : Type := mk {
  Query : string;
  Args : Arg
}.
Arguments mk {Arg} _ _.
Arguments Query {Arg} _.
Arguments Args {Arg} _.
End Where.

(** [type AdviceItemFunc[T any] func(t T) (T, error)].  Hooks are taken to
    be functions of their argument. *)
Definition AdviceItemFunc (T : Type) : Type := T -> T * option error.


Module QueryListResult.
Record t (T : Type) : Type := mk {
  Total : Z;
  Page : Z;
  Data : list T
}.
Arguments mk {T} _ _ _.
Arguments Total {T} _.
Arguments Page {T} _.
Arguments Data {T} _.
End QueryListResult.


(* ===================================================================== *)
(** ** pkg/gormer.go *)
(* ===================================================================== *)

Module Pkg.

(** *** Configurations and their builders

    A configuration is a heap cell reached through a pointer; the [With*]
    methods update the cell in place and return the receiver. *)

Module QueryListConfig.
Record t (T Arg : Type) : Type := mk {
  PageSize : Z;
  Page : Z;
  Order : Order.t;
  OrderBy : string;
  Wheres : slice (Where.t Arg);
  AdviceItemFuncs : slice (AdviceItemFunc T);
  Preloads : slice string
}.
Arguments mk {T Arg} _ _ _ _ _ _ _.
Arguments PageSize {T Arg} _.
Arguments Page {T Arg} _.
Arguments Order {T Arg} _.
Arguments OrderBy {T Arg} _.
Arguments Wheres {T Arg} _.
Arguments AdviceItemFuncs {T Arg} _.
Arguments Preloads {T Arg} _.

Section Methods.
Context {T Arg : Type}.

(** Field assignments [qc.F = v]. *)
Definition set_PageSize (v : Z) (c : t T Arg) : t T Arg :=
  mk v (Page c) (Order c) (OrderBy c) (Wheres c) (AdviceItemFuncs c) (Preloads c).
Definition set_Page (v : Z) (c : t T Arg) : t T Arg :=
  mk (PageSize c) v (Order c) (OrderBy c) (Wheres c) (AdviceItemFuncs c) (Preloads c).
Definition set_Order (v : Order.t) (c : t T Arg) : t T Arg :=
  mk (PageSize c) (Page c) v (OrderBy c) (Wheres c) (AdviceItemFuncs c) (Preloads c).
Definition set_OrderBy (v : string) (c : t T Arg) : t T Arg :=
  mk (PageSize c) (Page c) (Order c) v (Wheres c) (AdviceItemFuncs c) (Preloads c).
Definition set_Wheres (v : slice (Where.t Arg)) (c : t T Arg) : t T Arg :=
  mk (PageSize c) (Page c) (Order c) (OrderBy c) v (AdviceItemFuncs c) (Preloads c).
Definition set_AdviceItemFuncs (v : slice (AdviceItemFunc T)) (c : t T Arg) : t T Arg :=
  mk (PageSize c) (Page c) (Order c) (OrderBy c) (Wheres c) v (Preloads c).
Definition set_Preloads (v : slice string) (c : t T Arg) : t T Arg :=
  mk (PageSize c) (Page c) (Order c) (OrderBy c) (Wheres c) (AdviceItemFuncs c) v.

Definition WithWheres (qc : ptr) (wheres : slice (Where.t Arg))
  : M (gmap positive (t T Arg)) ptr :=
  _ ← modify qc (fun c => set_Wheres (append (Wheres c) wheres) c);
  mret qc.

Definition WithPreloads (qc : ptr) (preloads : slice string)
  : M (gmap positive (t T Arg)) ptr :=
  _ ← modify qc (fun c => set_Preloads (append (Preloads c) preloads) c);
  mret qc.

Definition WithAdviceItemFunc (qc : ptr) (funcs : slice (AdviceItemFunc T))
  : M (gmap positive (t T Arg)) ptr :=
  _ ← modify qc (fun c => set_AdviceItemFuncs (append (AdviceItemFuncs c) funcs) c);
  mret qc.

Definition WithOrderBy (qc : ptr) (orderBy : string)
  : M (gmap positive (t T Arg)) ptr :=
  _ ← modify qc (set_OrderBy orderBy);
  mret qc.

Definition WithOrder (qc : ptr) (order : Order.t)
  : M (gmap positive (t T Arg)) ptr :=
  _ ← modify qc (set_Order order);
  mret qc.

Definition WithPageSize (qc : ptr) (pageSize : Z)
  : M (gmap positive (t T Arg)) ptr :=
  if Z.leb pageSize 0 then mret qc
  else
    _ ← modify qc (set_PageSize pageSize);
    mret qc.

Definition WithPage (qc : ptr) (page : Z)
  : M (gmap positive (t T Arg)) ptr :=
  if Z.leb page 0 then mret qc
  else
    _ ← modify qc (set_Page page);
    mret qc.

End Methods.
End QueryListConfig.

Section NewQueryListConfig.
Context {T Arg : Type}.

Definition NewQueryListConfig : M (gmap positive (QueryListConfig.t T Arg)) ptr :=
  alloc (QueryListConfig.mk 10 1 Order.DESC "updated_at" (Some []) (Some []) (Some [])).

End NewQueryListConfig.

Module QueryConfig.
Record t (Arg : Type) : Type := mk {
  Wheres : slice (Where.t Arg);
  Preloads : slice string
}.
Arguments mk {Arg} _ _.
Arguments Wheres {Arg} _.
Arguments Preloads {Arg} _.

Section Methods.
Context {Arg : Type}.

Definition WithWheres (qc : ptr) (wheres : slice (Where.t Arg))
  : M (gmap positive (t Arg)) ptr :=
  _ ← modify qc (fun c => mk (append (Wheres c) wheres) (Preloads c));
  mret qc.

Definition WithPreloads (qc : ptr) (preloads : slice string)
  : M (gmap positive (t Arg)) ptr :=
  _ ← modify qc (fun c => mk (Wheres c) (append (Preloads c) preloads));
  mret qc.

End Methods.
End QueryConfig.

Section NewQueryConfig.
Context {Arg : Type}.

Definition NewQueryConfig : M (gmap positive (QueryConfig.t Arg)) ptr :=
  alloc (QueryConfig.mk (Some []) (Some [])).

End NewQueryConfig.


(** *** Query engine

    The engine only reads its configuration, so [qc] is what the pointer
    refers to at the time of the call ([None] for a nil pointer). *)

Section Engine.
Context {T Arg : Type} {st : gorm.Store T Arg}.

(** [for _, where := range wheres { db = db.Where(where.Query, where.Args) }] *)
Fixpoint range_Where (wheres : list (Where.t Arg)) (db : gorm.DB Arg)
  : M (gorm.World st) (gorm.DB Arg) :=
  match wheres with
  | [] => mret db
  | where_ :: rest =>
      db ← gorm.chain (gorm.Where (Where.Query where_) (Where.Args where_)) db;
      range_Where rest db
  end.

(** [for _, preload := range preloads { db = db.Preload(preload) }] *)
Fixpoint range_Preload (preloads : list string) (db : gorm.DB Arg)
  : M (gorm.World st) (gorm.DB Arg) :=
  match preloads with
  | [] => mret db
  | preload :: rest =>
      db ← gorm.chain (gorm.Preload preload) db;
      range_Preload rest db
  end.

(** The inner hook loop,
    [for j, datum := range qr.Data { qr.Data[j], err = itemFunc(datum); ... }],
    over the indices [js] still to visit. *)
Fixpoint range_Data (itemFunc : AdviceItemFunc T) (js : list nat) (data : list T)
  : M (gorm.World st) (list T) :=
  match js with
  | [] => mret data
  | j :: rest =>
      datum ← deref (data !! j);
      let '(t, err) := itemFunc datum in
      let data := <[j := t]> data in
      _ ← match err with
          | Some e => gorm.Warn (Error e)
          | None => mret tt
          end;
      range_Data itemFunc rest data
  end.

(** [for _, itemFunc := range qc.AdviceItemFuncs { ... }] *)
Fixpoint range_AdviceItemFuncs (funcs : list (AdviceItemFunc T)) (data : list T)
  : M (gorm.World st) (list T) :=
  match funcs with
  | [] => mret data
  | itemFunc :: rest =>
      data ← range_Data itemFunc (seq 0 (length data)) data;
      range_AdviceItemFuncs rest data
  end.

Definition QueryList (dc tdc : gorm.DB Arg) (qc : option (QueryListConfig.t T Arg))
  : M (gorm.World st) (option (QueryListResult.t T) * option error) :=
  c ← deref qc;
  let qr : QueryListResult.t T := QueryListResult.mk 0 (QueryListConfig.Page c) [] in
  dc ← gorm.chain gorm.Model dc;
  dc ← range_Where (range (QueryListConfig.Wheres c)) dc;
  '(total, err) ← gorm.Count dc;
  let qr := QueryListResult.mk total (QueryListResult.Page qr) (QueryListResult.Data qr) in
  match err with
  | Some err => mret (None, Some err)
  | None =>
      let offset := int_mul (int_sub (QueryListConfig.Page c) 1) (QueryListConfig.PageSize c) in
      tdc ← gorm.chain gorm.Model tdc;
      tdc ← range_Where (range (QueryListConfig.Wheres c)) tdc;
      tdc ← match qc, QueryListConfig.Preloads c with
            | Some _, Some preloads => range_Preload preloads tdc
            | _, _ => mret tdc
            end;
      tdc ← gorm.chain (gorm.Order (Sprintf_s_s (QueryListConfig.OrderBy c)
                                      (Order.String (QueryListConfig.Order c)))) tdc;
      tdc ← gorm.chain (gorm.Offset offset) tdc;
      tdc ← gorm.chain (gorm.Limit (QueryListConfig.PageSize c)) tdc;
      '(data, err) ← gorm.Find tdc;
      let qr := QueryListResult.mk (QueryListResult.Total qr) (QueryListResult.Page qr) data in
      match err with
      | Some err => mret (None, Some err)
      | None =>
          data ← range_AdviceItemFuncs (range (QueryListConfig.AdviceItemFuncs c))
                   (QueryListResult.Data qr);
          mret (Some (QueryListResult.mk (QueryListResult.Total qr)
                        (QueryListResult.Page qr) data), None)
      end
  end.

Definition Create (db : gorm.DB Arg) (t : T) : M (gorm.World st) (option error) :=
  match db with
  | None => mret (Some (Errorf "get db client failed"))
  | Some _ =>
      db ← gorm.chain gorm.Model db;
      gorm.Create db t
  end.

Definition Exist (db : gorm.DB Arg) (qc : option (QueryConfig.t Arg))
  : M (gorm.World st) (bool * option error) :=
  match db with
  | None => mret (false, Some (Errorf "get db client failed"))
  | Some _ =>
      db ← gorm.chain gorm.Model db;
      db ← match qc with
           | Some c =>
               match QueryConfig.Wheres c with
               | Some wheres => range_Where wheres db
               | None => mret db
               end
           | None => mret db
           end;
      '(count, err) ← gorm.Count db;
      match err with
      | Some err => mret (false, Some err)
      | None => mret (Z.ltb 0 count, None)
      end
  end.

Definition Update (db : gorm.DB Arg) (t : option T) : M (gorm.World st) (option error) :=
  match db with
  | None => mret (Some (Errorf "get db client failed"))
  | Some _ => gorm.Save db t
  end.

Definition Query (db : gorm.DB Arg) (qc : option (QueryConfig.t Arg))
  : M (gorm.World st) (option T * option error) :=
  match db with
  | None => mret (None, Some (Errorf "get db client failed"))
  | Some _ =>
      db ← gorm.chain gorm.Model db;
      db ← match qc with
           | Some c =>
               match QueryConfig.Wheres c with
               | Some wheres => range_Where wheres db
               | None => mret db
               end
           | None => mret db
           end;
      db ← match qc with
           | Some c =>
               match QueryConfig.Preloads c with
               | Some preloads => range_Preload preloads db
               | None => mret db
               end
           | None => mret db
           end;
      '(t, e) ← gorm.First db;
      match e with
      | Some e =>
          if errors_Is_ErrRecordNotFound e then mret (None, None)
          else mret (None, Some e)
      | None => mret (Some t, None)
      end
  end.

Definition Delete (db : gorm.DB Arg) (qc : option (QueryConfig.t Arg))
  : M (gorm.World st) (option error) :=
  match db with
  | None => mret (Some (Errorf "get db client failed"))
  | Some _ =>
      '(t, err) ← Query db qc;
      match err with
      | Some err => mret (Some err)
      | None => gorm.Delete db t
      end
  end.

End Engine.

End Pkg.

(* ===================================================================== *)
(** ** The earlier iteration of the package *)
(* ===================================================================== *)

(** The repository keeps a second, older copy of the file.  Its filter
    arguments are strings, its configurations have no preloads and no
    hooks, its constructors hand out package-level variables, [Exist] drops
    the error of the count, and [Delete] asks [Exist] first. *)

Module Earlier.

Module QueryListConfig.
Record t : Type := mk {
  PageSize : Z;
  Page : Z;
  Order : Order.t;
  OrderBy : string;
  Wheres : slice (Where.t string)
}.

Definition set_PageSize (v : Z) (c : t) : t :=
  mk v (Page c) (Order c) (OrderBy c) (Wheres c).
Definition set_Page (v : Z) (c : t) : t :=
  mk (PageSize c) v (Order c) (OrderBy c) (Wheres c).
Definition set_Order (v : Order.t) (c : t) : t :=
  mk (PageSize c) (Page c) v (OrderBy c) (Wheres c).
Definition set_OrderBy (v : string) (c : t) : t :=
  mk (PageSize c) (Page c) (Order c) v (Wheres c).
Definition set_Wheres (v : slice (Where.t string)) (c : t) : t :=
  mk (PageSize c) (Page c) (Order c) (OrderBy c) v.

Definition WithWheres (qc : ptr) (wheres : slice (Where.t string))
  : M (gmap positive t) ptr :=
  _ ← modify qc (fun c => set_Wheres (append (Wheres c) wheres) c);
  mret qc.

Definition WithOrderBy (qc : ptr) (orderBy : string) : M (gmap positive t) ptr :=
  _ ← modify qc (set_OrderBy orderBy);
  mret qc.

Definition WithOrder (qc : ptr) (order : Order.t) : M (gmap positive t) ptr :=
  _ ← modify qc (set_Order order);
  mret qc.

Definition WithPageSize (qc : ptr) (pageSize : Z) : M (gmap positive t) ptr :=
  if Z.leb pageSize 0 then mret qc
  else
    _ ← modify qc (set_PageSize pageSize);
    mret qc.

Definition WithPage (qc : ptr) (page : Z) : M (gmap positive t) ptr :=
  if Z.leb page 0 then mret qc
  else
    _ ← modify qc (set_Page page);
    mret qc.
End QueryListConfig.

(** [var defaultQuery = &QueryListConfig{...}]: one cell, allocated when the
    package is initialised; [package_init_lists] is the heap at that
    point. *)
Definition defaultQuery : ptr := Some 1%positive.
Definition package_init_lists : gmap positive QueryListConfig.t :=
  {[ 1%positive := QueryListConfig.mk 10 1 Order.DESC "updated_at" (Some []) ]}.

Definition NewQueryListConfig : M (gmap positive QueryListConfig.t) ptr :=
  mret defaultQuery.

Module QueryConfig.
Record t : Type := mk {
  Wheres : slice (Where.t string)
}.

Definition WithWheres (qc : ptr) (wheres : slice (Where.t string))
  : M (gmap positive t) ptr :=
  _ ← modify qc (fun c => mk (append (Wheres c) wheres));
  mret qc.
End QueryConfig.

Definition defaultQueryConfig : ptr := Some 1%positive.
Definition package_init_points : gmap positive QueryConfig.t :=
  {[ 1%positive := QueryConfig.mk (Some []) ]}.

Definition NewQueryConfig : M (gmap positive QueryConfig.t) ptr :=
  mret defaultQueryConfig.

Section Engine.
Context {T : Type} {st : gorm.Store T string}.

Fixpoint range_Where (wheres : list (Where.t string)) (db : gorm.DB string)
  : M (gorm.World st) (gorm.DB string) :=
  match wheres with
  | [] => mret db
  | where_ :: rest =>
      db ← gorm.chain (gorm.Where (Where.Query where_) (Where.Args where_)) db;
      range_Where rest db
  end.

Definition QueryList (dc tdc : gorm.DB string) (qc : option QueryListConfig.t)
  : M (gorm.World st) (option (QueryListResult.t T) * option error) :=
  c ← deref qc;
  let qr : QueryListResult.t T := QueryListResult.mk 0 (QueryListConfig.Page c) [] in
  tdc ← gorm.chain gorm.Model tdc;
  tdc ← range_Where (range (QueryListConfig.Wheres c)) tdc;
  '(total, err) ← gorm.Count tdc;
  let qr := QueryListResult.mk total (QueryListResult.Page qr) (QueryListResult.Data qr) in
  match err with
  | Some err => mret (None, Some err)
  | None =>
      let offset := int_mul (int_sub (QueryListConfig.Page c) 1) (QueryListConfig.PageSize c) in
      dc ← gorm.chain gorm.Model dc;
      dc ← range_Where (range (QueryListConfig.Wheres c)) dc;
      dc ← gorm.chain (gorm.Order (Sprintf_s_s (QueryListConfig.OrderBy c)
                                     (Order.String (QueryListConfig.Order c)))) dc;
      dc ← gorm.chain (gorm.Offset offset) dc;
      dc ← gorm.chain (gorm.Limit (QueryListConfig.PageSize c)) dc;
      '(data, err) ← gorm.Find dc;
      let qr := QueryListResult.mk (QueryListResult.Total qr) (QueryListResult.Page qr) data in
      match err with
      | Some err => mret (None, Some err)
      | None => mret (Some qr, None)
      end
  end.

Definition Create (db : gorm.DB string) (t : T) : M (gorm.World st) (option error) :=
  match db with
  | None => mret (Some (Errorf "get db client failed"))
  | Some _ =>
      db ← gorm.chain gorm.Model db;
      gorm.Create db t
  end.

Definition Exist (db : gorm.DB string) (qc : option QueryConfig.t)
  : M (gorm.World st) (bool * option error) :=
  match db with
  | None => mret (false, Some (Errorf "get db client failed"))
  | Some _ =>
      db ← gorm.chain gorm.Model db;
      db ← match qc with
           | Some c =>
               match QueryConfig.Wheres c with
               | Some wheres => range_Where wheres db
               | None => mret db
               end
           | None => mret db
           end;
      '(count, _) ← gorm.Count db;
      mret (Z.ltb 0 count, None)
  end.

Definition Update (db : gorm.DB string) (t : T) : M (gorm.World st) (option error) :=
  match db with
  | None => mret (Some (Errorf "get db client failed"))
  | Some _ =>
      db ← gorm.chain gorm.Model db;
      gorm.Save db (Some t)
  end.

Definition Query (db : gorm.DB string) (qc : option QueryConfig.t)
  : M (gorm.World st) (option T * option error) :=
  match db with
  | None => mret (None, Some (Errorf "get db client failed"))
  | Some _ =>
      db ← gorm.chain gorm.Model db;
      db ← match qc with
           | Some c =>
               match QueryConfig.Wheres c with
               | Some wheres => range_Where wheres db
               | None => mret db
               end
           | None => mret db
           end;
      '(t, e) ← gorm.First db;
      match e with
      | Some e =>
          if errors_Is_ErrRecordNotFound e then mret (None, None)
          else mret (None, Some e)
      | None => mret (Some t, None)
      end
  end.

Definition Delete (db : gorm.DB string) (qc : option QueryConfig.t)
  : M (gorm.World st) (option error) :=
  match db with
  | None => mret (Some (Errorf "get db client failed"))
  | Some _ =>
      '(exist_, err) ← Exist db qc;
      match err with
      | Some err => mret (Some err)
      | None =>
          if negb exist_ then mret None
          else
            '(t, err) ← Query db qc;
            match err with
            | Some err => mret (Some err)
            | None => gorm.Delete db t
            end
      end
  end.

End Engine.

End Earlier.

(* ===================================================================== *)
(** ** What the engine is said to do *)
(* ===================================================================== *)

(** The statements and the hook results in the words of the
    specification; the theorems below compare the code with them. *)

Module Spec.

Section Definitions.
Context {T Arg : Type}.

(** One [Where] clause per filter fragment, in declaration order. *)
Definition where_clauses (wheres : list (Where.t Arg)) : gorm.Statement Arg :=
  map (fun w => gorm.Where (Where.Query w) (Where.Args w)) wheres.

(** The clauses a count may carry: the model binding and filters. *)
Definition is_binding_or_filter (cl : gorm.Clause Arg) : bool :=
  match cl with
  | gorm.Model | gorm.Where _ _ => true
  | _ => false
  end.

(** The count query: the model binding and every filter fragment. *)
Definition count_statement (dc : gorm.Statement Arg) (wheres : slice (Where.t Arg))
  : gorm.Statement Arg :=
  dc ++ [gorm.Model] ++ where_clauses (range wheres).

(** [offset = (page - 1) * pageSize], in [int] arithmetic. *)
Definition offset (page pageSize : Z) : Z := int_mul (int_sub page 1) pageSize.

(** The fetch query: every filter fragment, every preload name, the
    ordering, the offset and the limit. *)
Definition fetch_statement (tdc : gorm.Statement Arg) (c : Pkg.QueryListConfig.t T Arg)
  : gorm.Statement Arg :=
  tdc ++ [gorm.Model]
      ++ where_clauses (range (Pkg.QueryListConfig.Wheres c))
      ++ map gorm.Preload (range (Pkg.QueryListConfig.Preloads c))
      ++ [gorm.Order (Pkg.QueryListConfig.OrderBy c +:+ " "
                        +:+ Order.String (Pkg.QueryListConfig.Order c));
          gorm.Offset (offset (Pkg.QueryListConfig.Page c) (Pkg.QueryListConfig.PageSize c));
          gorm.Limit (Pkg.QueryListConfig.PageSize c)].

(** The filters and preloads of a point configuration; a nil pointer has
    none. *)
Definition point_wheres (qc : option (Pkg.QueryConfig.t Arg)) : slice (Where.t Arg) :=
  match qc with
  | Some c => Pkg.QueryConfig.Wheres c
  | None => None
  end.
Definition point_preloads (qc : option (Pkg.QueryConfig.t Arg)) : slice string :=
  match qc with
  | Some c => Pkg.QueryConfig.Preloads c
  | None => None
  end.

(** The statement of a single-row lookup: filters, then preloads. *)
Definition point_statement (db : gorm.Statement Arg) (qc : option (Pkg.QueryConfig.t Arg))
  : gorm.Statement Arg :=
  db ++ [gorm.Model] ++ where_clauses (range (point_wheres qc))
     ++ map gorm.Preload (range (point_preloads qc)).

(** The statement of an existence check: filters only. *)
Definition exist_statement (db : gorm.Statement Arg) (qc : option (Pkg.QueryConfig.t Arg))
  : gorm.Statement Arg :=
  count_statement db (point_wheres qc).

(** A configuration without filters and preloads (its slices nil or
    empty). *)
Definition no_filters (c : Pkg.QueryConfig.t Arg) : Prop :=
  range (Pkg.QueryConfig.Wheres c) = [] /\ range (Pkg.QueryConfig.Preloads c) = [].

(** One hook applied to every row: each row becomes what the hook
    returned for it. *)
Definition advise_with (itemFunc : AdviceItemFunc T) (data : list T) : list T :=
  map (fun t => fst (itemFunc t)) data.

(** The rows after the hooks [funcs], applied one after the other. *)
Definition advise (funcs : list (AdviceItemFunc T)) (rows : list T) : list T :=
  foldl (fun data itemFunc => advise_with itemFunc data) rows funcs.

(** The warnings one hook leaves, in row order. *)
Definition warnings_with (itemFunc : AdviceItemFunc T) (data : list T) : list slog.Entry :=
  omap (fun t => (fun e => slog.WARN (Error e)) <$> snd (itemFunc t)) data.

(** The warnings of all hooks, hook by hook. *)
Fixpoint warnings (funcs : list (AdviceItemFunc T)) (rows : list T) : list slog.Entry :=
  match funcs with
  | [] => []
  | itemFunc :: rest =>
      warnings_with itemFunc rows ++ warnings rest (advise_with itemFunc rows)
  end.

(** The limit in force on a statement: its last [Limit] clause. *)
Fixpoint limit_of (s : gorm.Statement Arg) (acc : option Z) : option Z :=
  match s with
  | [] => acc
  | gorm.Limit n :: s' => limit_of s' (Some n)
  | _ :: s' => limit_of s' acc
  end.

(** The defaults of the constructors. *)
Definition list_defaults : Pkg.QueryListConfig.t T Arg :=
  Pkg.QueryListConfig.mk 10 1 Order.DESC "updated_at" (Some []) (Some []) (Some []).
Definition point_defaults : Pkg.QueryConfig.t Arg :=
  Pkg.QueryConfig.mk (Some []) (Some []).

(** A mutation of a list configuration: one call of a builder method. *)
Inductive ListOp : Type :=
| OpWheres (wheres : slice (Where.t Arg))
| OpPreloads (preloads : slice string)
| OpAdviceItemFunc (funcs : slice (AdviceItemFunc T))
| OpOrderBy (orderBy : string)
| OpOrder (order : Order.t)
| OpPageSize (pageSize : Z)
| OpPage (page : Z).

Definition run_ListOp (qc : ptr) (op : ListOp)
  : M (gmap positive (Pkg.QueryListConfig.t T Arg)) ptr :=
  match op with
  | OpWheres wheres => Pkg.QueryListConfig.WithWheres qc wheres
  | OpPreloads preloads => Pkg.QueryListConfig.WithPreloads qc preloads
  | OpAdviceItemFunc funcs => Pkg.QueryListConfig.WithAdviceItemFunc qc funcs
  | OpOrderBy orderBy => Pkg.QueryListConfig.WithOrderBy qc orderBy
  | OpOrder order => Pkg.QueryListConfig.WithOrder qc order
  | OpPageSize pageSize => Pkg.QueryListConfig.WithPageSize qc pageSize
  | OpPage page => Pkg.QueryListConfig.WithPage qc page
  end.

(** A fluent chain [qc.With...(..).With...(..)]: every call is made on the
    pointer the previous one returned. *)
Fixpoint run_ListOps (qc : ptr) (ops : list ListOp)
  : M (gmap positive (Pkg.QueryListConfig.t T Arg)) ptr :=
  match ops with
  | [] => mret qc
  | op :: rest => qc ← run_ListOp qc op; run_ListOps qc rest
  end.

(** The same for point configurations. *)
Inductive PointOp : Type :=
| OpPointWheres (wheres : slice (Where.t Arg))
| OpPointPreloads (preloads : slice string).

Definition run_PointOp (qc : ptr) (op : PointOp)
  : M (gmap positive (Pkg.QueryConfig.t Arg)) ptr :=
  match op with
  | OpPointWheres wheres => Pkg.QueryConfig.WithWheres qc wheres
  | OpPointPreloads preloads => Pkg.QueryConfig.WithPreloads qc preloads
  end.

Fixpoint run_PointOps (qc : ptr) (ops : list PointOp)
  : M (gmap positive (Pkg.QueryConfig.t Arg)) ptr :=
  match ops with
  | [] => mret qc
  | op :: rest => qc ← run_PointOp qc op; run_PointOps qc rest
  end.

End Definitions.

(** The existence check of the earlier iteration: the filters of its
    configuration, none for a nil pointer. *)
Definition earlier_exist_statement (db : gorm.Statement string)
    (qc : option Earlier.QueryConfig.t) : gorm.Statement string :=
  count_statement db match qc with
                     | Some c => Earlier.QueryConfig.Wheres c
                     | None => None
                     end.

(** The queries of the earlier [QueryList]: no preloads there. *)
Definition earlier_fetch_statement (dc : gorm.Statement string)
    (c : Earlier.QueryListConfig.t) : gorm.Statement string :=
  dc ++ [gorm.Model]
     ++ where_clauses (range (Earlier.QueryListConfig.Wheres c))
     ++ [gorm.Order (Earlier.QueryListConfig.OrderBy c +:+ " "
                       +:+ Order.String (Earlier.QueryListConfig.Order c));
         gorm.Offset (offset (Earlier.QueryListConfig.Page c)
                        (Earlier.QueryListConfig.PageSize c));
         gorm.Limit (Earlier.QueryListConfig.PageSize c)].

(** A store honours LIMIT when a fetch that succeeds under a non-negative
    limit returns at most that many rows. *)
Definition honours_limit {T Arg : Type} (st : gorm.Store T Arg) : Prop :=
  forall (s : gorm.Statement Arg) (n : Z) sigma rows sigma',
    limit_of s None = Some n ->
    0 <= n ->
    gorm.do_Find st s sigma = ((rows, None), sigma') ->
    Z.of_nat (length rows) <= n.

End Spec.

(* ===================================================================== *)
(** ** An in-memory store for running the code *)
(* ===================================================================== *)

(** A table of integers standing for a one-column entity.  It understands
    the predicates "v = ?" and "v >= ?", knows no relation to preload,
    keeps rows in insertion order, and treats limits and offsets the way
    gorm does (a negative limit and a non-positive offset are dropped).
    It serves only to evaluate the package on concrete inputs. *)

Module MemStore.

Definition ErrSyntax : error := ErrorString "syntax error".
Definition ErrUnsupportedRelation : error := ErrorString "unsupported relations".
Definition ErrInvalidValue : error :=
  ErrorString "invalid value, should be pointer to struct or slice".

Definition predicate (query : string) : option (Z -> Z -> bool) :=
  if String.eqb query "v = ?" then Some (fun arg row => Z.eqb row arg)
  else if String.eqb query "v >= ?" then Some (fun arg row => Z.leb arg row)
  else None.

(** The rows a statement selects, or the error of its first bad clause. *)
Fixpoint select (s : gorm.Statement Z) (rows : list Z) : error + list Z :=
  match s with
  | [] => inr rows
  | gorm.Where query arg :: s' =>
      match predicate query with
      | Some p => select s' (List.filter (p arg) rows)
      | None => inl ErrSyntax
      end
  | gorm.Preload _ :: _ => inl ErrUnsupportedRelation
  | _ :: s' => select s' rows
  end.

Fixpoint offset_of (s : gorm.Statement Z) (acc : option Z) : option Z :=
  match s with
  | [] => acc
  | gorm.Offset n :: s' => offset_of s' (Some n)
  | _ :: s' => offset_of s' acc
  end.

Definition page (s : gorm.Statement Z) (rows : list Z) : list Z :=
  let rows := match offset_of s None with
              | Some n => if Z.ltb 0 n then drop (Z.to_nat n) rows else rows
              | None => rows
              end in
  match Spec.limit_of s None with
  | Some n => if Z.leb 0 n then take (Z.to_nat n) rows else rows
  | None => rows
  end.

Definition store : gorm.Store Z Z := {|
  gorm.state := list Z;
  gorm.do_Count s rows :=
    match select s rows with
    | inr sel => ((Z.of_nat (length sel), None), rows)
    | inl e => ((0, Some e), rows)
    end;
  gorm.do_Find s rows :=
    match select s rows with
    | inr sel => ((page s sel, None), rows)
    | inl e => (([], Some e), rows)
    end;
  gorm.do_First s rows :=
    match select s rows with
    | inr (row :: _) => ((row, None), rows)
    | inr [] => ((0, Some ErrRecordNotFound), rows)
    | inl e => ((0, Some e), rows)
    end;
  gorm.do_Create s t rows := (None, rows ++ [t]);
  gorm.do_Save s t rows :=
    match t with
    | Some t => (None, if bool_decide (t ∈ rows) then rows else rows ++ [t])
    | None => (Some ErrInvalidValue, rows)
    end;
  gorm.do_Delete s t rows :=
    match t with
    | Some t => (None, List.filter (fun row => negb (Z.eqb row t)) rows)
    | None => (Some ErrInvalidValue, rows)
    end
|}.

(** A world over the table [rows] in which nothing has happened yet. *)
Definition world (rows : list Z) : gorm.World store := gorm.mkWorld (rows : gorm.state store) [] [].

(** *** Sample inputs *)

Definition at_least (n : Z) : Where.t Z := Where.mk "v >= ?" n.
Definition equals (n : Z) : Where.t Z := Where.mk "v = ?" n.
Definition malformed : Where.t Z := Where.mk "v ~ ?" 0.

(** A list configuration built field by field, as a struct literal. *)
Definition list_config (pageSize page : Z) (wheres : list (Where.t Z))
    (funcs : list (AdviceItemFunc Z)) (preloads : list string)
  : Pkg.QueryListConfig.t Z Z :=
  Pkg.QueryListConfig.mk pageSize page Order.DESC "updated_at"
    (Some wheres) (Some funcs) (Some preloads).

Definition point_config (wheres : list (Where.t Z)) : Pkg.QueryConfig.t Z :=
  Pkg.QueryConfig.mk (Some wheres) (Some []).

(** A hook that fails and hands back the zero value, and one that
    succeeds. *)
Definition failing_hook : AdviceItemFunc Z :=
  fun _ => (0, Some (ErrorString "hook failed")).
Definition doubling_hook : AdviceItemFunc Z :=
  fun t => (2 * t, None).
(** A hook that fails and hands its argument back. *)
Definition complaining_hook : AdviceItemFunc Z :=
  fun t => (t, Some (ErrorString "hook complained")).

End MemStore.

(* ===================================================================== *)
(** ** Further vocabulary for the properties of the builders and the engine *)
(* ===================================================================== *)

Module Builders.

Section Definitions.
Context {T Arg : Type}.



(** What one builder call makes of the fields of its receiver. *)
Definition effect (op : Spec.ListOp) (c : Pkg.QueryListConfig.t T Arg)
  : Pkg.QueryListConfig.t T Arg :=
  match op with
  | Spec.OpWheres wheres =>
      Pkg.QueryListConfig.set_Wheres (append (Pkg.QueryListConfig.Wheres c) wheres) c
  | Spec.OpPreloads preloads =>
      Pkg.QueryListConfig.set_Preloads (append (Pkg.QueryListConfig.Preloads c) preloads) c
  | Spec.OpAdviceItemFunc funcs =>
      Pkg.QueryListConfig.set_AdviceItemFuncs
        (append (Pkg.QueryListConfig.AdviceItemFuncs c) funcs) c
  | Spec.OpOrderBy orderBy => Pkg.QueryListConfig.set_OrderBy orderBy c
  | Spec.OpOrder order => Pkg.QueryListConfig.set_Order order c
  | Spec.OpPageSize pageSize =>
      if Z.leb pageSize 0 then c else Pkg.QueryListConfig.set_PageSize pageSize c
  | Spec.OpPage page =>
      if Z.leb page 0 then c else Pkg.QueryListConfig.set_Page page c
  end.

(** Page size and page are both positive. *)
Definition positive_paging (c : Pkg.QueryListConfig.t T Arg) : Prop :=
  0 < Pkg.QueryListConfig.PageSize c /\ 0 < Pkg.QueryListConfig.Page c.

End Definitions.

End Builders.

Module Hooks.

(** One row taken through the hooks, first hook first. *)
Definition through {T : Type} (funcs : list (AdviceItemFunc T)) (row : T) : T :=
  foldl (fun t itemFunc => fst (itemFunc t)) row funcs.

End Hooks.

(** A configuration of the earlier iteration read as one of [pkg]: the
    same fields, no hooks and no preloads. *)
Module Compare.

Definition list_config {T : Type} (c : Earlier.QueryListConfig.t)
  : Pkg.QueryListConfig.t T string :=
  Pkg.QueryListConfig.mk (Earlier.QueryListConfig.PageSize c) (Earlier.QueryListConfig.Page c)
    (Earlier.QueryListConfig.Order c) (Earlier.QueryListConfig.OrderBy c)
    (Earlier.QueryListConfig.Wheres c) None None.

Definition point_config (c : Earlier.QueryConfig.t) : Pkg.QueryConfig.t string :=
  Pkg.QueryConfig.mk (Earlier.QueryConfig.Wheres c) None.

End Compare.

(* ===================================================================== *)
(** ** An in-memory store of names that another actor may disturb *)
(* ===================================================================== *)

(** A table of strings filtered by "name = ?".  After the first count the
    table may be replaced, or the store may start failing: what a second
    client of the same database can do between two round trips.  It serves
    only to evaluate the earlier iteration on concrete inputs. *)

Module NameStore.

Inductive Disturbance : Type :=
| Replace (rows : list string)
| Break (e : error).

Record State : Type := mkState {
  rows : list string;
  broken : option error;
  pending : option Disturbance
}.

Definition ErrSyntax : error := ErrorString "syntax error".
Definition ErrConnection : error := ErrorString "connection lost".
Definition ErrInvalidValue : error :=
  ErrorString "invalid value, should be pointer to struct or slice".

Fixpoint select (s : gorm.Statement string) (table : list string) : error + list string :=
  match s with
  | [] => inr table
  | gorm.Where query arg :: s' =>
      if String.eqb query "name = ?"
      then select s' (List.filter (fun row => String.eqb row arg) table)
      else inl ErrSyntax
  | _ :: s' => select s' table
  end.

Definition disturb (sigma : State) : State :=
  match pending sigma with
  | Some (Replace table) => mkState table (broken sigma) None
  | Some (Break e) => mkState (rows sigma) (Some e) None
  | None => sigma
  end.

Definition store : gorm.Store string string := {|
  gorm.state := State;
  gorm.do_Count s sigma :=
    match broken sigma, select s (rows sigma) with
    | Some e, _ => ((0, Some e), sigma)
    | None, inr sel => ((Z.of_nat (length sel), None), disturb sigma)
    | None, inl e => ((0, Some e), disturb sigma)
    end;
  gorm.do_Find s sigma :=
    match broken sigma, select s (rows sigma) with
    | Some e, _ => (([], Some e), sigma)
    | None, inr sel => ((sel, None), sigma)
    | None, inl e => (([], Some e), sigma)
    end;
  gorm.do_First s sigma :=
    match broken sigma, select s (rows sigma) with
    | Some e, _ => (("", Some e), sigma)
    | None, inr (row :: _) => ((row, None), sigma)
    | None, inr [] => (("", Some ErrRecordNotFound), sigma)
    | None, inl e => (("", Some e), sigma)
    end;
  gorm.do_Create s t sigma :=
    match broken sigma with
    | Some e => (Some e, sigma)
    | None => (None, mkState (rows sigma ++ [t]) None (pending sigma))
    end;
  gorm.do_Save s t sigma :=
    match broken sigma, t with
    | Some e, _ => (Some e, sigma)
    | None, Some t => (None, mkState (rows sigma ++ [t]) None (pending sigma))
    | None, None => (Some ErrInvalidValue, sigma)
    end;
  gorm.do_Delete s t sigma :=
    match broken sigma, t with
    | Some e, _ => (Some e, sigma)
    | None, Some t =>
        (None, mkState (List.filter (fun row => negb (String.eqb row t)) (rows sigma))
                 None (pending sigma))
    | None, None => (Some ErrInvalidValue, sigma)
    end
|}.

(** A world over [table] in which nothing has happened yet, with what will
    happen after the first count. *)
Definition world (table : list string) (next : option Disturbance) : gorm.World store :=
  gorm.mkWorld (mkState table None next : gorm.state store) [] [].

Definition named (name : string) : Earlier.QueryConfig.t :=
  Earlier.QueryConfig.mk (Some [Where.mk "name = ?" name]).

End NameStore.

(* ===================================================================== *)
(** * Properties *)
(* ===================================================================== *)

(** ** Running the monad *)

Lemma bind_Ret {S A B} (m : M S A) (f : A -> M S B) s a s' :
  m s = Ret (a, s') -> (m ≫= f) s = f a s'.
Proof. intros H. unfold mbind, M_bind. now rewrite H. Qed.

Section EngineFacts.
Context {T Arg : Type} {st : gorm.Store T Arg}.
Implicit Types (s : gorm.Statement Arg) (w : gorm.World st).

Lemma chain_Some c s w :
  gorm.chain (st:=st) c (Some s) w = Ret (Some (s ++ [c]), w).
Proof. reflexivity. Qed.

Lemma range_Where_run wheres s w :
  Pkg.range_Where (st:=st) wheres (Some s) w = Ret (Some (s ++ Spec.where_clauses wheres), w).
Proof.
  revert s. induction wheres as [|x wheres IH]; intros s; simpl.
  - now rewrite app_nil_r.
  - erewrite bind_Ret by apply chain_Some.
    rewrite IH, <- app_assoc. reflexivity.
Qed.

Lemma range_Preload_run preloads s w :
  Pkg.range_Preload (st:=st) preloads (Some s) w = Ret (Some (s ++ map gorm.Preload preloads), w).
Proof.
  revert s. induction preloads as [|x preloads IH]; intros s; simpl.
  - now rewrite app_nil_r.
  - erewrite bind_Ret by apply chain_Some.
    rewrite IH, <- app_assoc. reflexivity.
Qed.

Lemma range_Data_run itemFunc todo : forall done w,
  Pkg.range_Data (st:=st) itemFunc (seq (length done) (length todo)) (done ++ todo) w
  = Ret (done ++ Spec.advise_with itemFunc todo,
         gorm.add_log w (Spec.warnings_with itemFunc todo)).
Proof.
  induction todo as [|t todo IH]; intros done w; simpl.
  - unfold gorm.add_log. destruct w. simpl. now rewrite !app_nil_r.
  - rewrite list_lookup_middle by reflexivity.
    erewrite bind_Ret by reflexivity.
    assert (Hrest : forall t' w1,
      Pkg.range_Data (st:=st) itemFunc (seq (S (length done)) (length todo))
        (<[length done := t']> (done ++ t :: todo)) w1
      = Ret (done ++ t' :: Spec.advise_with itemFunc todo,
             gorm.add_log w1 (Spec.warnings_with itemFunc todo))).
    { intros t' w1. specialize (IH (done ++ [t']) w1).
      rewrite (insert_app_r_alt done (t :: todo) (length done)), Nat.sub_diag by lia.
      rewrite length_app, Nat.add_1_r, <- !app_assoc in IH. exact IH. }
    destruct (itemFunc t) as [t' [e|]]; erewrite bind_Ret by reflexivity;
      rewrite Hrest; simpl; [|reflexivity].
    unfold gorm.add_log. simpl. now rewrite <- app_assoc.
Qed.

Lemma add_log_add_log w l1 l2 : gorm.add_log (gorm.add_log w l1) l2 = gorm.add_log w (l1 ++ l2).
Proof. unfold gorm.add_log. simpl. now rewrite <- app_assoc. Qed.

Lemma add_log_nil w : gorm.add_log w [] = w.
Proof. unfold gorm.add_log. destruct w. simpl. now rewrite app_nil_r. Qed.

Lemma range_AdviceItemFuncs_run funcs : forall rows w,
  Pkg.range_AdviceItemFuncs (st:=st) funcs rows w
  = Ret (Spec.advise funcs rows, gorm.add_log w (Spec.warnings funcs rows)).
Proof.
  induction funcs as [|f funcs IH]; intros rows w; simpl.
  - now rewrite add_log_nil.
  - erewrite bind_Ret by apply (range_Data_run f rows [] w).
    rewrite IH, add_log_add_log. reflexivity.
Qed.

End EngineFacts.

(** One step of a run: the leftmost call of a chain of binds returns. *)
Ltac run_step :=
  erewrite bind_Ret
    by first [ apply chain_Some | apply range_Where_run | apply range_Preload_run
             | apply range_AdviceItemFuncs_run | reflexivity ].

Section RunFacts.
Context {T Arg : Type} {st : gorm.Store T Arg}.
Implicit Types (s : gorm.Statement Arg) (w : gorm.World st).

Lemma Count_run s w r sigma :
  gorm.do_Count st s (gorm.db_state w) = (r, sigma) ->
  gorm.Count (Some s) w = Ret (r, gorm.after w sigma [gorm.CallCount s]).
Proof. intros H. unfold gorm.Count, gorm.finish. now rewrite H. Qed.

Lemma Find_run s w r sigma :
  gorm.do_Find st s (gorm.db_state w) = (r, sigma) ->
  gorm.Find (Some s) w = Ret (r, gorm.after w sigma [gorm.CallFind s]).
Proof. intros H. unfold gorm.Find, gorm.finish. now rewrite H. Qed.

Lemma First_run s w r sigma :
  gorm.do_First st s (gorm.db_state w) = (r, sigma) ->
  gorm.First (Some s) w = Ret (r, gorm.after w sigma [gorm.CallFirst s]).
Proof. intros H. unfold gorm.First, gorm.finish. now rewrite H. Qed.

Lemma Delete_run s t w r sigma :
  gorm.do_Delete st s t (gorm.db_state w) = (r, sigma) ->
  gorm.Delete (Some s) t w = Ret (r, gorm.after w sigma [gorm.CallDelete s t]).
Proof. intros H. unfold gorm.Delete, gorm.finish. now rewrite H. Qed.

Lemma after_after w sigma1 cs1 sigma2 cs2 :
  gorm.after (gorm.after w sigma1 cs1) sigma2 cs2 = gorm.after w sigma2 (cs1 ++ cs2).
Proof. unfold gorm.after. simpl. now rewrite <- app_assoc. Qed.

(** *** QueryList *)

Section QueryList.
Context (dc tdc : gorm.Statement Arg) (c : Pkg.QueryListConfig.t T Arg) (w : gorm.World st).
Let cs := Spec.count_statement dc (Pkg.QueryListConfig.Wheres c).
Let fs := Spec.fetch_statement tdc c.

Lemma QueryList_run :
  Pkg.QueryList (Some dc) (Some tdc) (Some c) w =
  match gorm.do_Count st cs (gorm.db_state w) with
  | ((_, Some e), sigma1) => Ret ((None, Some e), gorm.after w sigma1 [gorm.CallCount cs])
  | ((total, None), sigma1) =>
      match gorm.do_Find st fs sigma1 with
      | ((_, Some e), sigma2) =>
          Ret ((None, Some e), gorm.after w sigma2 [gorm.CallCount cs; gorm.CallFind fs])
      | ((rows, None), sigma2) =>
          let funcs := range (Pkg.QueryListConfig.AdviceItemFuncs c) in
          Ret ((Some (QueryListResult.mk total (Pkg.QueryListConfig.Page c)
                        (Spec.advise funcs rows)), None),
               gorm.add_log (gorm.after w sigma2 [gorm.CallCount cs; gorm.CallFind fs])
                       (Spec.warnings funcs rows))
      end
  end.
Proof.
  unfold Pkg.QueryList.
  run_step. run_step. run_step. rewrite <- app_assoc.
  fold cs.
  destruct (gorm.do_Count st cs (gorm.db_state w)) as [[total [e|]] sigma1] eqn:Hc;
    (erewrite bind_Ret by (apply Count_run, Hc)); cbv beta iota; [reflexivity|].
  run_step. run_step.
  assert (Hpre : forall s w1,
    match Pkg.QueryListConfig.Preloads c with
    | Some preloads => Pkg.range_Preload (st:=st) preloads (Some s)
    | None => mret (Some s)
    end w1 = Ret (Some (s ++ map gorm.Preload (range (Pkg.QueryListConfig.Preloads c))), w1)).
  { intros s w1. destruct (Pkg.QueryListConfig.Preloads c); simpl.
    - apply range_Preload_run.
    - now rewrite app_nil_r. }
  erewrite bind_Ret by apply Hpre.
  run_step. run_step. run_step.
  match goal with |- context [gorm.Find (Some ?s)] => replace s with fs end.
  2:{ subst fs. unfold Spec.fetch_statement, Spec.offset, Sprintf_s_s.
      rewrite <- !app_assoc. reflexivity. }
  destruct (gorm.do_Find st fs sigma1) as [[rows [e|]] sigma2] eqn:Hf;
    (erewrite bind_Ret by (apply Find_run; simpl; apply Hf));
    cbv beta iota; rewrite ?after_after; simpl; [reflexivity|].
  run_step. reflexivity.
Qed.
End QueryList.

(** *** Exist, Query and Delete on a live handle *)

Lemma point_wheres_run (qc : option (Pkg.QueryConfig.t Arg)) s w :
  match qc with
  | Some c =>
      match Pkg.QueryConfig.Wheres c with
      | Some wheres => Pkg.range_Where (st:=st) wheres (Some s)
      | None => mret (Some s)
      end
  | None => mret (Some s)
  end w = Ret (Some (s ++ Spec.where_clauses (range (Spec.point_wheres qc))), w).
Proof.
  destruct qc as [c|]; simpl; [destruct (Pkg.QueryConfig.Wheres c); simpl|].
  - apply range_Where_run.
  - now rewrite app_nil_r.
  - now rewrite app_nil_r.
Qed.

Lemma point_preloads_run (qc : option (Pkg.QueryConfig.t Arg)) s w :
  match qc with
  | Some c =>
      match Pkg.QueryConfig.Preloads c with
      | Some preloads => Pkg.range_Preload (st:=st) preloads (Some s)
      | None => mret (Some s)
      end
  | None => mret (Some s)
  end w = Ret (Some (s ++ map gorm.Preload (range (Spec.point_preloads qc))), w).
Proof.
  destruct qc as [c|]; simpl; [destruct (Pkg.QueryConfig.Preloads c); simpl|].
  - apply range_Preload_run.
  - now rewrite app_nil_r.
  - now rewrite app_nil_r.
Qed.

Lemma Exist_run db qc w :
  Pkg.Exist (Some db) qc w =
  match gorm.do_Count st (Spec.exist_statement db qc) (gorm.db_state w) with
  | ((_, Some e), sigma) =>
      Ret ((false, Some e), gorm.after w sigma [gorm.CallCount (Spec.exist_statement db qc)])
  | ((count, None), sigma) =>
      Ret ((Z.ltb 0 count, None), gorm.after w sigma [gorm.CallCount (Spec.exist_statement db qc)])
  end.
Proof.
  unfold Pkg.Exist.
  run_step. erewrite bind_Ret by apply point_wheres_run.
  rewrite <- app_assoc. change (db ++ [gorm.Model] ++ ?x) with (Spec.count_statement db (Spec.point_wheres qc)).
  fold (Spec.exist_statement db qc).
  destruct (gorm.do_Count st _ _) as [[count [e|]] sigma] eqn:Hc;
    (erewrite bind_Ret by (apply Count_run, Hc)); reflexivity.
Qed.

Lemma Query_run db qc w :
  Pkg.Query (Some db) qc w =
  match gorm.do_First st (Spec.point_statement db qc) (gorm.db_state w) with
  | ((t, Some e), sigma) =>
      Ret (if errors_Is_ErrRecordNotFound e then (None, None) else (None, Some e),
           gorm.after w sigma [gorm.CallFirst (Spec.point_statement db qc)])
  | ((t, None), sigma) =>
      Ret ((Some t, None), gorm.after w sigma [gorm.CallFirst (Spec.point_statement db qc)])
  end.
Proof.
  unfold Pkg.Query.
  run_step. erewrite bind_Ret by apply point_wheres_run.
  erewrite bind_Ret by apply point_preloads_run.
  rewrite <- !app_assoc. fold (Spec.point_statement db qc).
  destruct (gorm.do_First st _ _) as [[t [e|]] sigma] eqn:Hf;
    (erewrite bind_Ret by (apply First_run, Hf)); cbv beta iota.
  - now destruct (errors_Is_ErrRecordNotFound e).
  - reflexivity.
Qed.

Lemma Delete_run_not_found db qc w t e sigma1 :
  gorm.do_First st (Spec.point_statement db qc) (gorm.db_state w) = ((t, Some e), sigma1) ->
  errors_Is_ErrRecordNotFound e = true ->
  Pkg.Delete (Some db) qc w =
  let '(r, sigma2) := gorm.do_Delete st db None sigma1 in
  Ret (r, gorm.after w sigma2 [gorm.CallFirst (Spec.point_statement db qc); gorm.CallDelete db None]).
Proof.
  intros Hf He. unfold Pkg.Delete.
  erewrite bind_Ret by (rewrite Query_run, Hf, He; reflexivity).
  cbv beta iota.
  destruct (gorm.do_Delete st db None sigma1) as [r sigma2] eqn:Hd.
  erewrite Delete_run by apply Hd. now rewrite after_after.
Qed.

Lemma Delete_run_found db qc w t sigma1 :
  gorm.do_First st (Spec.point_statement db qc) (gorm.db_state w) = ((t, None), sigma1) ->
  Pkg.Delete (Some db) qc w =
  let '(r, sigma2) := gorm.do_Delete st db (Some t) sigma1 in
  Ret (r, gorm.after w sigma2 [gorm.CallFirst (Spec.point_statement db qc);
                          gorm.CallDelete db (Some t)]).
Proof.
  intros Hf. unfold Pkg.Delete.
  erewrite bind_Ret by (rewrite Query_run, Hf; reflexivity).
  cbv beta iota.
  destruct (gorm.do_Delete st db (Some t) sigma1) as [r sigma2] eqn:Hd.
  erewrite Delete_run by apply Hd. now rewrite after_after.
Qed.

Lemma Delete_run_fails db qc w t e sigma1 :
  gorm.do_First st (Spec.point_statement db qc) (gorm.db_state w) = ((t, Some e), sigma1) ->
  errors_Is_ErrRecordNotFound e = false ->
  Pkg.Delete (Some db) qc w =
  Ret (Some e, gorm.after w sigma1 [gorm.CallFirst (Spec.point_statement db qc)]).
Proof.
  intros Hf He. unfold Pkg.Delete.
  erewrite bind_Ret by (rewrite Query_run, Hf, He; reflexivity).
  reflexivity.
Qed.

End RunFacts.

(* ===================================================================== *)
(** ** Hooks, limits and offsets *)
(* ===================================================================== *)

Section HookFacts.
Context {T : Type}.
Implicit Types (funcs : list (AdviceItemFunc T)) (rows data : list T).

Lemma advise_with_length (f : AdviceItemFunc T) data :
  length (Spec.advise_with f data) = length data.
Proof. apply length_map. Qed.

Lemma advise_length funcs : forall rows, length (Spec.advise funcs rows) = length rows.
Proof.
  induction funcs as [|f funcs IH]; intros rows; [reflexivity|].
  change (Spec.advise (f :: funcs) rows) with (Spec.advise funcs (Spec.advise_with f rows)).
  now rewrite IH, advise_with_length.
Qed.

Lemma advise_app funcs1 funcs2 rows :
  Spec.advise (funcs1 ++ funcs2) rows = Spec.advise funcs2 (Spec.advise funcs1 rows).
Proof. apply foldl_app. Qed.

Lemma warnings_app funcs1 funcs2 : forall rows,
  Spec.warnings (funcs1 ++ funcs2) rows
  = Spec.warnings funcs1 rows ++ Spec.warnings funcs2 (Spec.advise funcs1 rows).
Proof.
  induction funcs1 as [|f funcs1 IH]; intros rows; simpl; [reflexivity|].
  now rewrite IH, <- app_assoc.
Qed.

Lemma advise_take_S funcs k (f : AdviceItemFunc T) rows :
  funcs !! k = Some f ->
  Spec.advise (take (S k) funcs) rows = Spec.advise_with f (Spec.advise (take k funcs) rows).
Proof. intros H. erewrite take_S_r by exact H. now rewrite advise_app. Qed.

Lemma advise_with_lookup (f : AdviceItemFunc T) data j t :
  data !! j = Some t -> Spec.advise_with f data !! j = Some (fst (f t)).
Proof. intros H. unfold Spec.advise_with. now rewrite list_lookup_fmap, H. Qed.

Lemma warning_of_row (f : AdviceItemFunc T) data j t e :
  data !! j = Some t -> snd (f t) = Some e ->
  slog.WARN (Error e) ∈ Spec.warnings_with f data.
Proof.
  intros Hj He. unfold Spec.warnings_with. apply list_elem_of_omap.
  exists t. split; [eapply list_elem_of_lookup_2, Hj|]. now rewrite He.
Qed.

Lemma warnings_of_stage funcs k (f : AdviceItemFunc T) rows x :
  funcs !! k = Some f ->
  x ∈ Spec.warnings_with f (Spec.advise (take k funcs) rows) ->
  x ∈ Spec.warnings funcs rows.
Proof.
  intros Hk Hx. rewrite <- (take_drop_middle funcs k f Hk), warnings_app.
  simpl. rewrite !elem_of_app. auto.
Qed.

End HookFacts.

Lemma wrap_in_int z : in_int z -> wrap z = z.
Proof.
  unfold in_int, wrap, int_bits. intros H.
  rewrite Z.mod_small by lia. lia.
Qed.

(** Without overflow the offset is the product itself. *)
Lemma offset_exact page pageSize :
  in_int (page - 1) -> in_int ((page - 1) * pageSize) ->
  Spec.offset page pageSize = (page - 1) * pageSize.
Proof.
  intros H1 H2. unfold Spec.offset, int_mul, int_sub.
  now rewrite (wrap_in_int _ H1), (wrap_in_int _ H2).
Qed.

Lemma limit_of_app {Arg} (s1 s2 : gorm.Statement Arg) : forall acc,
  Spec.limit_of (s1 ++ s2) acc = Spec.limit_of s2 (Spec.limit_of s1 acc).
Proof. induction s1 as [|[] s1 IH]; intros acc; simpl; auto. Qed.

Lemma fetch_statement_limit {T Arg} tdc (c : Pkg.QueryListConfig.t T Arg) :
  Spec.limit_of (Spec.fetch_statement tdc c) None = Some (Pkg.QueryListConfig.PageSize c).
Proof. unfold Spec.fetch_statement. now rewrite !limit_of_app. Qed.

Lemma MemStore_honours_limit : Spec.honours_limit MemStore.store.
Proof.
  intros s n sigma rows sigma' Hl Hn Hf. simpl in Hf.
  destruct (MemStore.select s sigma); [discriminate|].
  injection Hf as <- _. unfold MemStore.page. rewrite Hl.
  destruct (Z.leb_spec 0 n); [|lia]. rewrite length_take. lia.
Qed.

(* ===================================================================== *)
(** ** QueryList *)
(* ===================================================================== *)

Section QueryListClaims.
Context {T Arg : Type} (st : gorm.Store T Arg).

Lemma QueryList_success_inv dc tdc (c : Pkg.QueryListConfig.t T Arg) (w : gorm.World st) qr w' :
  Pkg.QueryList (Some dc) (Some tdc) (Some c) w = Ret ((Some qr, None), w') ->
  exists total sigma1 rows sigma2,
    gorm.do_Count st (Spec.count_statement dc (Pkg.QueryListConfig.Wheres c)) (gorm.db_state w)
      = ((total, None), sigma1)
    /\ gorm.do_Find st (Spec.fetch_statement tdc c) sigma1 = ((rows, None), sigma2)
    /\ qr = QueryListResult.mk total (Pkg.QueryListConfig.Page c)
              (Spec.advise (range (Pkg.QueryListConfig.AdviceItemFuncs c)) rows)
    /\ w' = gorm.add_log
              (gorm.after w sigma2
                 [gorm.CallCount (Spec.count_statement dc (Pkg.QueryListConfig.Wheres c));
                  gorm.CallFind (Spec.fetch_statement tdc c)])
              (Spec.warnings (range (Pkg.QueryListConfig.AdviceItemFuncs c)) rows).
Proof.
  rewrite QueryList_run.
  destruct (gorm.do_Count st _ _) as [[total [e|]] sigma1] eqn:Hc; [discriminate|].
  destruct (gorm.do_Find st _ _) as [[rows [e|]] sigma2] eqn:Hf; [discriminate|].
  cbv zeta. intros [= <- <-]. exists total, sigma1, rows, sigma2. auto.
Qed.

(** C5. A [QueryList] call that returns without error has made exactly two
    store calls: a count on the first handle with the model binding and
    one [Where] per filter fragment added (nothing else), then a fetch on
    the second handle with the model binding, the filters, one [Preload]
    per preload name, [Order "OrderBy Order"], [Offset] of
    [(Page - 1) * PageSize] (in [int] arithmetic) and [Limit PageSize]
    added.  When the count fails the call returns a nil result and the
    store's error without fetching; when the fetch fails it returns a nil
    result and the store's error. *)
Theorem QueryList_count_then_fetch dc tdc (c : Pkg.QueryListConfig.t T Arg) (w : gorm.World st) :
  let cs := Spec.count_statement dc (Pkg.QueryListConfig.Wheres c) in
  let fs := Spec.fetch_statement tdc c in
  (exists added, cs = dc ++ added /\ forallb Spec.is_binding_or_filter added = true)
  /\ (forall qr w',
        Pkg.QueryList (Some dc) (Some tdc) (Some c) w = Ret ((Some qr, None), w') ->
        gorm.calls w' = gorm.calls w ++ [gorm.CallCount cs; gorm.CallFind fs])
  /\ (forall total e sigma1,
        gorm.do_Count st cs (gorm.db_state w) = ((total, Some e), sigma1) ->
        Pkg.QueryList (Some dc) (Some tdc) (Some c) w
        = Ret ((None, Some e), gorm.after w sigma1 [gorm.CallCount cs]))
  /\ (forall total sigma1 rows e sigma2,
        gorm.do_Count st cs (gorm.db_state w) = ((total, None), sigma1) ->
        gorm.do_Find st fs sigma1 = ((rows, Some e), sigma2) ->
        Pkg.QueryList (Some dc) (Some tdc) (Some c) w
        = Ret ((None, Some e), gorm.after w sigma2 [gorm.CallCount cs; gorm.CallFind fs])).
Proof.
  intros cs fs. repeat split.
  - exists ([gorm.Model] ++ Spec.where_clauses (range (Pkg.QueryListConfig.Wheres c))).
    split; [reflexivity|]. simpl. unfold Spec.where_clauses.
    induction (range (Pkg.QueryListConfig.Wheres c)); simpl; auto.
  - intros qr w' H. apply QueryList_success_inv in H as (total & s1 & rows & s2 & _ & _ & _ & ->).
    reflexivity.
  - intros total e sigma1 Hc. rewrite QueryList_run. fold cs. now rewrite Hc.
  - intros total sigma1 rows e sigma2 Hc Hf. rewrite QueryList_run. fold cs fs.
    now rewrite Hc, Hf.
Qed.


(** C6 (amended). A successful [QueryList] call returns the configuration's
    page, the total the count reported (whatever the number of rows
    fetched), and as data the fetched rows after the hooks, one per fetched
    row.  The data has at most [PageSize] rows when [PageSize] is not
    negative and the store honours LIMIT. *)
Theorem QueryList_result dc tdc (c : Pkg.QueryListConfig.t T Arg) (w : gorm.World st) qr w' :
  Pkg.QueryList (Some dc) (Some tdc) (Some c) w = Ret ((Some qr, None), w') ->
  exists total sigma1 rows sigma2,
    gorm.do_Count st (Spec.count_statement dc (Pkg.QueryListConfig.Wheres c)) (gorm.db_state w)
      = ((total, None), sigma1)
    /\ gorm.do_Find st (Spec.fetch_statement tdc c) sigma1 = ((rows, None), sigma2)
    /\ QueryListResult.Page qr = Pkg.QueryListConfig.Page c
    /\ QueryListResult.Total qr = total
    /\ QueryListResult.Data qr
       = Spec.advise (range (Pkg.QueryListConfig.AdviceItemFuncs c)) rows
    /\ length (QueryListResult.Data qr) = length rows
    /\ (Spec.honours_limit st -> 0 <= Pkg.QueryListConfig.PageSize c ->
        Z.of_nat (length (QueryListResult.Data qr)) <= Pkg.QueryListConfig.PageSize c).
Proof.
  intros H. apply QueryList_success_inv in H as (total & s1 & rows & s2 & Hc & Hf & -> & _).
  exists total, s1, rows, s2. simpl. rewrite advise_length.
  repeat split; auto.
  intros Hst Hn. eapply Hst; [apply fetch_statement_limit | exact Hn | exact Hf].
Qed.

(** C1 (amended). When the count and the fetch succeed, [QueryList] returns
    a non-nil result and no error whatever the hooks return.  The data are
    the fetched rows after every hook; every error a hook returns is logged
    as a warning; and after a hook has run on a row, the row holds the
    value the hook returned, also when it returned an error. *)
Theorem QueryList_hook_errors_not_fatal dc tdc (c : Pkg.QueryListConfig.t T Arg)
    (w : gorm.World st) total sigma1 rows sigma2 :
  gorm.do_Count st (Spec.count_statement dc (Pkg.QueryListConfig.Wheres c)) (gorm.db_state w)
    = ((total, None), sigma1) ->
  gorm.do_Find st (Spec.fetch_statement tdc c) sigma1 = ((rows, None), sigma2) ->
  let funcs := range (Pkg.QueryListConfig.AdviceItemFuncs c) in
  exists qr w',
    Pkg.QueryList (Some dc) (Some tdc) (Some c) w = Ret ((Some qr, None), w')
    /\ QueryListResult.Data qr = Spec.advise funcs rows
    /\ gorm.log w' = gorm.log w ++ Spec.warnings funcs rows
    /\ forall k itemFunc j t t' err,
         funcs !! k = Some itemFunc ->
         Spec.advise (take k funcs) rows !! j = Some t ->
         itemFunc t = (t', err) ->
         Spec.advise (take (S k) funcs) rows !! j = Some t'
         /\ forall e, err = Some e -> slog.WARN (Error e) ∈ gorm.log w'.
Proof.
  intros Hc Hf funcs. eexists _, _. split.
  { rewrite QueryList_run, Hc, Hf. reflexivity. }
  simpl. split; [reflexivity|]. split; [reflexivity|].
  intros k itemFunc j t t' err Hk Hj Hhook. split.
  - erewrite advise_take_S by exact Hk.
    erewrite advise_with_lookup by exact Hj.
    now rewrite Hhook.
  - intros e ->. apply elem_of_app. right.
    eapply warnings_of_stage; [exact Hk|].
    eapply warning_of_row; [exact Hj|].
    now rewrite Hhook.
Qed.

End QueryListClaims.

(** *** On the in-memory store *)

(** C5, on concrete inputs: page 2 of size 2 over the rows not below 2; a
    malformed filter, which fails the count; a preload the store does not
    know, which fails the fetch. *)
Lemma QueryList_count_then_fetch_witness :
  (exists qr w',
      Pkg.QueryList (st:=MemStore.store) (Some []) (Some [])
        (Some (MemStore.list_config 2 2 [MemStore.at_least 2] [] []))
        (MemStore.world [1; 5; 7; 9; 11]) = Ret ((Some qr, None), w')
      /\ QueryListResult.Data qr = [9; 11]
      /\ gorm.calls w'
         = [gorm.CallCount [gorm.Model; gorm.Where "v >= ?" 2];
            gorm.CallFind [gorm.Model; gorm.Where "v >= ?" 2;
                           gorm.Order "updated_at desc"; gorm.Offset 2; gorm.Limit 2]])
  /\ Pkg.QueryList (st:=MemStore.store) (Some []) (Some [])
       (Some (MemStore.list_config 2 2 [MemStore.malformed] [] []))
       (MemStore.world [1; 5; 7; 9; 11])
     = Ret ((None, Some MemStore.ErrSyntax),
            gorm.mkWorld ([1; 5; 7; 9; 11] : gorm.state MemStore.store)
              [gorm.CallCount [gorm.Model; gorm.Where "v ~ ?" 0]] [])
  /\ Pkg.QueryList (st:=MemStore.store) (Some []) (Some [])
       (Some (MemStore.list_config 2 2 [] [] ["Orders"]))
       (MemStore.world [1; 5; 7; 9; 11])
     = Ret ((None, Some MemStore.ErrUnsupportedRelation),
            gorm.mkWorld ([1; 5; 7; 9; 11] : gorm.state MemStore.store)
              [gorm.CallCount [gorm.Model];
               gorm.CallFind [gorm.Model; gorm.Preload "Orders";
                              gorm.Order "updated_at desc"; gorm.Offset 2; gorm.Limit 2]] []).
Proof.
  split; [|split].
  - destruct (QueryList_count_then_fetch MemStore.store [] []
                (MemStore.list_config 2 2 [MemStore.at_least 2] [] [])
                (MemStore.world [1; 5; 7; 9; 11])) as (_ & Hcalls & _).
    eexists _, _. split; [cbv; reflexivity|]. split; [reflexivity|].
    eapply Hcalls. cbv; reflexivity.
  - destruct (QueryList_count_then_fetch MemStore.store [] []
                (MemStore.list_config 2 2 [MemStore.malformed] [] [])
                (MemStore.world [1; 5; 7; 9; 11])) as (_ & _ & Hcount & _).
    apply (Hcount 0 MemStore.ErrSyntax [1; 5; 7; 9; 11] eq_refl).
  - destruct (QueryList_count_then_fetch MemStore.store [] []
                (MemStore.list_config 2 2 [] [] ["Orders"])
                (MemStore.world [1; 5; 7; 9; 11])) as (_ & _ & _ & Hfetch).
    apply (Hfetch 5 [1; 5; 7; 9; 11] [] MemStore.ErrUnsupportedRelation [1; 5; 7; 9; 11]
             eq_refl eq_refl).
Defined.

(** C6 as stated fails: with [PageSize = -1], set on the struct directly,
    the limit is dropped and the call returns two rows. *)
Lemma QueryList_negative_page_size_counterexample :
  exists qr w',
    Pkg.QueryList (st:=MemStore.store) (Some []) (Some [])
      (Some (MemStore.list_config (-1) 1 [MemStore.at_least 2] [] []))
      (MemStore.world [1; 5; 7]) = Ret ((Some qr, None), w')
    /\ QueryListResult.Data qr = [5; 7]
    /\ ~ Z.of_nat (length (QueryListResult.Data qr))
         <= Pkg.QueryListConfig.PageSize (MemStore.list_config (-1) 1 [MemStore.at_least 2] [] []).
Proof.
  eexists _, _. split; [cbv; reflexivity|]. split; [reflexivity|]. simpl. lia.
Qed.

(** C6 (amended), on page 2 of size 2 over the rows not below 2. *)
Lemma QueryList_result_witness :
  exists qr w',
    Pkg.QueryList (st:=MemStore.store) (Some []) (Some [])
      (Some (MemStore.list_config 2 2 [MemStore.at_least 2] [] []))
      (MemStore.world [1; 5; 7; 9; 11]) = Ret ((Some qr, None), w')
    /\ QueryListResult.Page qr = 2
    /\ QueryListResult.Total qr = 4
    /\ QueryListResult.Data qr = [9; 11]
    /\ Z.of_nat (length (QueryListResult.Data qr)) <= 2.
Proof.
  eexists _, _. split; [cbv; reflexivity|].
  edestruct (QueryList_result MemStore.store [] []
               (MemStore.list_config 2 2 [MemStore.at_least 2] [] [])
               (MemStore.world [1; 5; 7; 9; 11]))
    as (total & s1 & rows & s2 & Hc & Hf & Hpage & Htotal & Hdata & Hlen & Hlimit);
    [cbv; reflexivity|].
  split; [exact Hpage|]. split; [reflexivity|]. split; [reflexivity|].
  apply Hlimit; [apply MemStore_honours_limit | simpl; lia].
Defined.

(** C1 as stated fails: a hook that returns an error together with the
    zero value overwrites the row, which does not keep its value 5. *)
Lemma QueryList_failing_hook_counterexample :
  exists qr w',
    Pkg.QueryList (st:=MemStore.store) (Some []) (Some [])
      (Some (MemStore.list_config 10 1 [] [MemStore.failing_hook] []))
      (MemStore.world [5]) = Ret ((Some qr, None), w')
    /\ MemStore.failing_hook 5 = (0, Some (ErrorString "hook failed"))
    /\ QueryListResult.Data qr = [0]
    /\ QueryListResult.Data qr <> [5]
    /\ gorm.log w' = [slog.WARN "hook failed"].
Proof.
  eexists _, _. split; [cbv; reflexivity|]. repeat split. discriminate.
Qed.

(** C1 (amended), with a hook that fails and hands its row back followed by
    one that doubles it. *)
Lemma QueryList_hook_errors_not_fatal_witness :
  exists qr w',
    Pkg.QueryList (st:=MemStore.store) (Some []) (Some [])
      (Some (MemStore.list_config 10 1 []
               [MemStore.complaining_hook; MemStore.doubling_hook] []))
      (MemStore.world [5; 7]) = Ret ((Some qr, None), w')
    /\ QueryListResult.Data qr = [10; 14]
    /\ gorm.log w' = [slog.WARN "hook complained"; slog.WARN "hook complained"].
Proof.
  destruct (QueryList_hook_errors_not_fatal MemStore.store [] []
              (MemStore.list_config 10 1 []
                 [MemStore.complaining_hook; MemStore.doubling_hook] [])
              (MemStore.world [5; 7]) 2 [5; 7] [5; 7] [5; 7] eq_refl eq_refl)
    as (qr & w' & Hrun & Hdata & Hlog & _).
  exists qr, w'. split; [exact Hrun|]. rewrite Hdata, Hlog. split; reflexivity.
Defined.

(* ===================================================================== *)
(** ** Exist, Query, Delete and the nil guards *)
(* ===================================================================== *)

Section PointClaims.
Context {T Arg : Type} (st : gorm.Store T Arg).
Implicit Types (db : gorm.Statement Arg) (qc : option (Pkg.QueryConfig.t Arg))
  (w : gorm.World st).

(** C3. On a live handle [Exist] counts the rows the filters select.  When
    the count succeeds it returns no error and [true] exactly when the
    count is positive; when the count fails it returns the store's error
    (with [false]), never a bare [false]. *)
Theorem Exist_reports_count_and_failure db qc w :
  let s := Spec.exist_statement db qc in
  (forall count sigma,
      gorm.do_Count st s (gorm.db_state w) = ((count, None), sigma) ->
      exists b,
        Pkg.Exist (Some db) qc w = Ret ((b, None), gorm.after w sigma [gorm.CallCount s])
        /\ (b = true <-> 0 < count))
  /\ (forall count e sigma,
        gorm.do_Count st s (gorm.db_state w) = ((count, Some e), sigma) ->
        Pkg.Exist (Some db) qc w
        = Ret ((false, Some e), gorm.after w sigma [gorm.CallCount s])).
Proof.
  intros s. split.
  - intros count sigma Hc. exists (Z.ltb 0 count). split.
    + rewrite Exist_run. fold s. now rewrite Hc.
    + apply Z.ltb_lt.
  - intros count e sigma Hc. rewrite Exist_run. fold s. now rewrite Hc.
Qed.

(** C7. On a live handle [Query] asks the store for the first row under
    the filters and preloads.  When the store reports that no record was
    found it returns nil and no error; on any other store error it returns
    nil and that error; otherwise it returns the row and no error. *)
Theorem Query_outcomes db qc w :
  let s := Spec.point_statement db qc in
  (forall t e sigma,
      gorm.do_First st s (gorm.db_state w) = ((t, Some e), sigma) ->
      errors_Is_ErrRecordNotFound e = true ->
      Pkg.Query (Some db) qc w = Ret ((None, None), gorm.after w sigma [gorm.CallFirst s]))
  /\ (forall t e sigma,
        gorm.do_First st s (gorm.db_state w) = ((t, Some e), sigma) ->
        errors_Is_ErrRecordNotFound e = false ->
        Pkg.Query (Some db) qc w = Ret ((None, Some e), gorm.after w sigma [gorm.CallFirst s]))
  /\ (forall t sigma,
        gorm.do_First st s (gorm.db_state w) = ((t, None), sigma) ->
        Pkg.Query (Some db) qc w = Ret ((Some t, None), gorm.after w sigma [gorm.CallFirst s])).
Proof.
  intros s. repeat split.
  - intros t e sigma Hf He. rewrite Query_run. fold s. now rewrite Hf, He.
  - intros t e sigma Hf He. rewrite Query_run. fold s. now rewrite Hf, He.
  - intros t sigma Hf. rewrite Query_run. fold s. now rewrite Hf.
Qed.

(** C2, what the code does.  When the lookup finds no record, [Delete]
    still calls the store's delete, on the caller's handle and with a nil
    row, and returns whatever that call reports; when the lookup finds a
    row, it deletes that row. *)
Theorem Delete_of_nothing_reaches_store db qc w :
  let s := Spec.point_statement db qc in
  (forall t e sigma1,
      gorm.do_First st s (gorm.db_state w) = ((t, Some e), sigma1) ->
      errors_Is_ErrRecordNotFound e = true ->
      Pkg.Delete (Some db) qc w
      = Ret (fst (gorm.do_Delete st db None sigma1),
             gorm.after w (snd (gorm.do_Delete st db None sigma1))
               [gorm.CallFirst s; gorm.CallDelete db None]))
  /\ (forall t sigma1,
        gorm.do_First st s (gorm.db_state w) = ((t, None), sigma1) ->
        Pkg.Delete (Some db) qc w
        = Ret (fst (gorm.do_Delete st db (Some t) sigma1),
               gorm.after w (snd (gorm.do_Delete st db (Some t) sigma1))
                 [gorm.CallFirst s; gorm.CallDelete db (Some t)])).
Proof.
  intros s. split.
  - intros t e sigma1 Hf He. erewrite Delete_run_not_found by eassumption.
    now destruct (gorm.do_Delete st db None sigma1).
  - intros t sigma1 Hf. erewrite Delete_run_found by eassumption.
    now destruct (gorm.do_Delete st db (Some t) sigma1).
Qed.

(** C9. [Create], [Update], [Delete], [Exist] and [Query] answer a nil
    handle with the error "get db client failed" and leave the store
    alone.  [QueryList] has no such guard: a nil configuration panics, a
    nil count handle panics, and a nil fetch handle panics once the count
    has succeeded (a failed count returns the count's error first). *)
Theorem QueryList_has_no_nil_guard :
  (forall t w, Pkg.Create (st:=st) None t w = Ret (Some (Errorf "get db client failed"), w))
  /\ (forall t w, Pkg.Update (st:=st) None t w = Ret (Some (Errorf "get db client failed"), w))
  /\ (forall qc w, Pkg.Delete (st:=st) None qc w = Ret (Some (Errorf "get db client failed"), w))
  /\ (forall qc w,
        Pkg.Exist (st:=st) None qc w = Ret ((false, Some (Errorf "get db client failed")), w))
  /\ (forall qc w,
        Pkg.Query (st:=st) None qc w = Ret ((None, Some (Errorf "get db client failed")), w))
  /\ (forall dc tdc w, Pkg.QueryList (st:=st) dc tdc None w = Panic)
  /\ (forall tdc c w, Pkg.QueryList (st:=st) None tdc (Some c) w = Panic)
  /\ (forall dc c w,
        Pkg.QueryList (st:=st) (Some dc) None (Some c) w =
        match gorm.do_Count st (Spec.count_statement dc (Pkg.QueryListConfig.Wheres c))
                (gorm.db_state w) with
        | ((_, Some e), sigma) =>
            Ret ((None, Some e),
                 gorm.after w sigma
                   [gorm.CallCount (Spec.count_statement dc (Pkg.QueryListConfig.Wheres c))])
        | ((_, None), _) => Panic
        end).
Proof.
  repeat split.
  intros dc c w. unfold Pkg.QueryList.
  run_step. run_step. run_step. rewrite <- app_assoc.
  fold (Spec.count_statement dc (Pkg.QueryListConfig.Wheres c)).
  destruct (gorm.do_Count st _ _) as [[total [e|]] sigma] eqn:Hc;
    (erewrite bind_Ret by (apply Count_run, Hc)); reflexivity.
Qed.

(** C10. On a live handle a nil configuration behaves like any
    configuration without filters and preloads: [Exist], [Query] and
    [Delete] return the same result and leave the same world.  None of
    them fails on it.  [Exist] counts and [Query] fetches the first row on
    the handle with only the model bound; [Delete] makes that same lookup
    and then, unless the lookup failed with an error other than "record
    not found", asks the store on the caller's handle to delete what the
    lookup found, so the first row of the table. *)
Theorem nil_config_means_no_filters db (c : Pkg.QueryConfig.t Arg) w :
  Spec.no_filters c ->
  Pkg.Exist (Some db) None w = Pkg.Exist (Some db) (Some c) w
  /\ Pkg.Query (Some db) None w = Pkg.Query (Some db) (Some c) w
  /\ Pkg.Delete (Some db) None w = Pkg.Delete (Some db) (Some c) w
  /\ (exists r w', Pkg.Exist (Some db) None w = Ret (r, w')
                   /\ gorm.calls w' = gorm.calls w ++ [gorm.CallCount (db ++ [gorm.Model])])
  /\ (exists r w', Pkg.Query (Some db) None w = Ret (r, w')
                   /\ gorm.calls w' = gorm.calls w ++ [gorm.CallFirst (db ++ [gorm.Model])])
  /\ (exists r w' rest,
        Pkg.Delete (Some db) None w = Ret (r, w')
        /\ gorm.calls w' = gorm.calls w ++ gorm.CallFirst (db ++ [gorm.Model]) :: rest)
  /\ Pkg.Exist (Some db) None w
     = match gorm.do_Count st (db ++ [gorm.Model]) (gorm.db_state w) with
       | ((_, Some e), sigma) =>
           Ret ((false, Some e), gorm.after w sigma [gorm.CallCount (db ++ [gorm.Model])])
       | ((count, None), sigma) =>
           Ret ((Z.ltb 0 count, None),
                gorm.after w sigma [gorm.CallCount (db ++ [gorm.Model])])
       end
  /\ Pkg.Query (Some db) None w
     = match gorm.do_First st (db ++ [gorm.Model]) (gorm.db_state w) with
       | ((_, Some e), sigma) =>
           Ret (if errors_Is_ErrRecordNotFound e then (None, None) else (None, Some e),
                gorm.after w sigma [gorm.CallFirst (db ++ [gorm.Model])])
       | ((t, None), sigma) =>
           Ret ((Some t, None), gorm.after w sigma [gorm.CallFirst (db ++ [gorm.Model])])
       end
  /\ Pkg.Delete (Some db) None w
     = match gorm.do_First st (db ++ [gorm.Model]) (gorm.db_state w) with
       | ((_, Some e), sigma1) =>
           if errors_Is_ErrRecordNotFound e
           then Ret (fst (gorm.do_Delete st db None sigma1),
                     gorm.after w (snd (gorm.do_Delete st db None sigma1))
                       [gorm.CallFirst (db ++ [gorm.Model]); gorm.CallDelete db None])
           else Ret (Some e, gorm.after w sigma1 [gorm.CallFirst (db ++ [gorm.Model])])
       | ((t, None), sigma1) =>
           Ret (fst (gorm.do_Delete st db (Some t) sigma1),
                gorm.after w (snd (gorm.do_Delete st db (Some t) sigma1))
                  [gorm.CallFirst (db ++ [gorm.Model]); gorm.CallDelete db (Some t)])
       end.
Proof.
  intros [Hw Hp].
  assert (He : Spec.exist_statement db (Some c) = Spec.exist_statement db None).
  { unfold Spec.exist_statement, Spec.count_statement. simpl. now rewrite Hw. }
  assert (Hs : Spec.point_statement db (Some c) = Spec.point_statement db None).
  { unfold Spec.point_statement. simpl. now rewrite Hw, Hp. }
  assert (HQ : forall w0, Pkg.Query (Some db) None w0 = Pkg.Query (Some db) (Some c) w0).
  { intros w0. now rewrite !Query_run, Hs. }
  assert (HD : Pkg.Delete (Some db) None w
     = match gorm.do_First st (db ++ [gorm.Model]) (gorm.db_state w) with
       | ((_, Some e), sigma1) =>
           if errors_Is_ErrRecordNotFound e
           then Ret (fst (gorm.do_Delete st db None sigma1),
                     gorm.after w (snd (gorm.do_Delete st db None sigma1))
                       [gorm.CallFirst (db ++ [gorm.Model]); gorm.CallDelete db None])
           else Ret (Some e, gorm.after w sigma1 [gorm.CallFirst (db ++ [gorm.Model])])
       | ((t, None), sigma1) =>
           Ret (fst (gorm.do_Delete st db (Some t) sigma1),
                gorm.after w (snd (gorm.do_Delete st db (Some t) sigma1))
                  [gorm.CallFirst (db ++ [gorm.Model]); gorm.CallDelete db (Some t)])
       end).
  { change (db ++ [gorm.Model]) with (Spec.point_statement db None).
    destruct (gorm.do_First st (Spec.point_statement db None) (gorm.db_state w))
      as [[t [e|]] sigma1] eqn:Hf.
    - destruct (errors_Is_ErrRecordNotFound e) eqn:Hnf.
      + erewrite Delete_run_not_found by eassumption.
        now destruct (gorm.do_Delete st db None sigma1).
      + now erewrite Delete_run_fails by eassumption.
    - erewrite Delete_run_found by eassumption.
      now destruct (gorm.do_Delete st db (Some t) sigma1). }
  split; [now rewrite !Exist_run, He|].
  split; [apply HQ|].
  split; [unfold Pkg.Delete, mbind, M_bind; now rewrite HQ|].
  split.
  { rewrite Exist_run.
    replace (Spec.exist_statement db None) with (db ++ [gorm.Model]) by reflexivity.
    destruct (gorm.do_Count st _ _) as [[count [e|]] sigma]; eexists _, _; split; reflexivity. }
  split.
  { rewrite Query_run.
    replace (Spec.point_statement db None) with (db ++ [gorm.Model]) by reflexivity.
    destruct (gorm.do_First st _ _) as [[t [e|]] sigma]; eexists _, _; split; reflexivity. }
  split.
  { rewrite HD.
    destruct (gorm.do_First st _ _) as [[t [e|]] sigma1];
      [destruct (errors_Is_ErrRecordNotFound e)|]; eexists _, _, _; split; reflexivity. }
  split; [rewrite Exist_run; reflexivity|].
  split; [rewrite Query_run; reflexivity|]. exact HD.
Qed.

End PointClaims.

(** *** On the in-memory store *)

(** C3 on the table [1; 5; 7]: one row is at least 6, none equals 9, and a
    malformed filter fails the count. *)
Lemma Exist_reports_count_and_failure_witness :
  Pkg.Exist (st:=MemStore.store) (Some []) (Some (MemStore.point_config [MemStore.at_least 6]))
    (MemStore.world [1; 5; 7])
  = Ret ((true, None),
         gorm.mkWorld ([1; 5; 7] : gorm.state MemStore.store)
           [gorm.CallCount [gorm.Model; gorm.Where "v >= ?" 6]] [])
  /\ Pkg.Exist (st:=MemStore.store) (Some []) (Some (MemStore.point_config [MemStore.equals 9]))
       (MemStore.world [1; 5; 7])
     = Ret ((false, None),
            gorm.mkWorld ([1; 5; 7] : gorm.state MemStore.store)
              [gorm.CallCount [gorm.Model; gorm.Where "v = ?" 9]] [])
  /\ Pkg.Exist (st:=MemStore.store) (Some []) (Some (MemStore.point_config [MemStore.malformed]))
       (MemStore.world [1; 5; 7])
     = Ret ((false, Some MemStore.ErrSyntax),
            gorm.mkWorld ([1; 5; 7] : gorm.state MemStore.store)
              [gorm.CallCount [gorm.Model; gorm.Where "v ~ ?" 0]] []).
Proof.
  split; [|split].
  - destruct (Exist_reports_count_and_failure MemStore.store []
                (Some (MemStore.point_config [MemStore.at_least 6]))
                (MemStore.world [1; 5; 7])) as [Hok _].
    destruct (Hok 1 [1; 5; 7] eq_refl) as (b & Hrun & Hb).
    refine (eq_trans Hrun _). destruct b; [reflexivity|].
    assert (false = true) by (apply Hb; lia). discriminate.
  - destruct (Exist_reports_count_and_failure MemStore.store []
                (Some (MemStore.point_config [MemStore.equals 9]))
                (MemStore.world [1; 5; 7])) as [Hok _].
    destruct (Hok 0 [1; 5; 7] eq_refl) as (b & Hrun & Hb).
    refine (eq_trans Hrun _). destruct b; [|reflexivity].
    assert (0 < 0) by (now apply Hb). lia.
  - destruct (Exist_reports_count_and_failure MemStore.store []
                (Some (MemStore.point_config [MemStore.malformed]))
                (MemStore.world [1; 5; 7])) as [_ Hfail].
    apply (Hfail 0 MemStore.ErrSyntax [1; 5; 7] eq_refl).
Defined.

(** C7 on the table [1; 5; 7]: no row equals 9, a malformed filter fails
    the lookup, and 5 is the first row that is at least 2. *)
Lemma Query_outcomes_witness :
  Pkg.Query (st:=MemStore.store) (Some []) (Some (MemStore.point_config [MemStore.equals 9]))
    (MemStore.world [1; 5; 7])
  = Ret ((None, None),
         gorm.mkWorld ([1; 5; 7] : gorm.state MemStore.store)
           [gorm.CallFirst [gorm.Model; gorm.Where "v = ?" 9]] [])
  /\ Pkg.Query (st:=MemStore.store) (Some []) (Some (MemStore.point_config [MemStore.malformed]))
       (MemStore.world [1; 5; 7])
     = Ret ((None, Some MemStore.ErrSyntax),
            gorm.mkWorld ([1; 5; 7] : gorm.state MemStore.store)
              [gorm.CallFirst [gorm.Model; gorm.Where "v ~ ?" 0]] [])
  /\ Pkg.Query (st:=MemStore.store) (Some []) (Some (MemStore.point_config [MemStore.at_least 2]))
       (MemStore.world [1; 5; 7])
     = Ret ((Some 5, None),
            gorm.mkWorld ([1; 5; 7] : gorm.state MemStore.store)
              [gorm.CallFirst [gorm.Model; gorm.Where "v >= ?" 2]] []).
Proof.
  split; [|split].
  - apply (proj1 (Query_outcomes MemStore.store []
                    (Some (MemStore.point_config [MemStore.equals 9]))
                    (MemStore.world [1; 5; 7]))
             0 ErrRecordNotFound [1; 5; 7] eq_refl eq_refl).
  - apply (proj1 (proj2 (Query_outcomes MemStore.store []
                    (Some (MemStore.point_config [MemStore.malformed]))
                    (MemStore.world [1; 5; 7])))
             0 MemStore.ErrSyntax [1; 5; 7] eq_refl eq_refl).
  - apply (proj2 (proj2 (Query_outcomes MemStore.store []
                    (Some (MemStore.point_config [MemStore.at_least 2]))
                    (MemStore.world [1; 5; 7])))
             5 [1; 5; 7] eq_refl).
Defined.

(** C2 on the table [1; 5; 7].  No row equals 9: [Delete] nevertheless
    calls the store's delete with a nil row and returns its error.  One
    row equals 5: it is deleted. *)
Lemma Delete_of_nothing_reaches_store_witness :
  Pkg.Delete (st:=MemStore.store) (Some []) (Some (MemStore.point_config [MemStore.equals 9]))
    (MemStore.world [1; 5; 7])
  = Ret (Some MemStore.ErrInvalidValue,
         gorm.mkWorld ([1; 5; 7] : gorm.state MemStore.store)
           [gorm.CallFirst [gorm.Model; gorm.Where "v = ?" 9]; gorm.CallDelete [] None] [])
  /\ Pkg.Delete (st:=MemStore.store) (Some []) (Some (MemStore.point_config [MemStore.equals 5]))
       (MemStore.world [1; 5; 7])
     = Ret (None,
            gorm.mkWorld ([1; 7] : gorm.state MemStore.store)
              [gorm.CallFirst [gorm.Model; gorm.Where "v = ?" 5];
               gorm.CallDelete [] (Some 5)] []).
Proof.
  split.
  - apply (proj1 (Delete_of_nothing_reaches_store MemStore.store []
                    (Some (MemStore.point_config [MemStore.equals 9]))
                    (MemStore.world [1; 5; 7]))
             0 ErrRecordNotFound [1; 5; 7] eq_refl eq_refl).
  - apply (proj2 (Delete_of_nothing_reaches_store MemStore.store []
                    (Some (MemStore.point_config [MemStore.equals 5]))
                    (MemStore.world [1; 5; 7]))
             5 [1; 5; 7] eq_refl).
Defined.

(** C10 on the table [1; 5; 7], against the configuration the constructor
    builds: with a nil configuration [Query] returns the first row of the
    table and [Delete] deletes it. *)
Lemma nil_config_means_no_filters_witness :
  Spec.no_filters (MemStore.point_config [])
  /\ Pkg.Exist (st:=MemStore.store) (Some []) None (MemStore.world [1; 5; 7])
     = Pkg.Exist (Some []) (Some (MemStore.point_config [])) (MemStore.world [1; 5; 7])
  /\ Pkg.Query (st:=MemStore.store) (Some []) None (MemStore.world [1; 5; 7])
     = Pkg.Query (Some []) (Some (MemStore.point_config [])) (MemStore.world [1; 5; 7])
  /\ Pkg.Delete (st:=MemStore.store) (Some []) None (MemStore.world [1; 5; 7])
     = Pkg.Delete (Some []) (Some (MemStore.point_config [])) (MemStore.world [1; 5; 7])
  /\ Pkg.Query (st:=MemStore.store) (Some []) None (MemStore.world [1; 5; 7])
     = Ret ((Some 1, None),
            gorm.mkWorld ([1; 5; 7] : gorm.state MemStore.store)
              [gorm.CallFirst [gorm.Model]] [])
  /\ Pkg.Delete (st:=MemStore.store) (Some []) None (MemStore.world [1; 5; 7])
     = Ret (None,
            gorm.mkWorld ([5; 7] : gorm.state MemStore.store)
              [gorm.CallFirst [gorm.Model]; gorm.CallDelete [] (Some 1)] []).
Proof.
  assert (H : Spec.no_filters (MemStore.point_config [])) by (split; reflexivity).
  split; [exact H|].
  destruct (nil_config_means_no_filters MemStore.store []
              (MemStore.point_config []) (MemStore.world [1; 5; 7]) H)
    as (He & Hq & Hd & _ & _ & _ & _ & Hquery & Hdelete).
  split; [exact He|]. split; [exact Hq|]. split; [exact Hd|].
  split; [exact Hquery | exact Hdelete].
Defined.

(* ===================================================================== *)
(** ** The earlier iteration *)
(* ===================================================================== *)

Section EarlierFacts.
Context {T : Type} {st : gorm.Store T string}.
Implicit Types (db : gorm.Statement string) (qc : option Earlier.QueryConfig.t)
  (w : gorm.World st).

Lemma Earlier_range_Where_run wheres db w :
  Earlier.range_Where (st:=st) wheres (Some db) w
  = Ret (Some (db ++ Spec.where_clauses wheres), w).
Proof.
  revert db. induction wheres as [|x wheres IH]; intros db; simpl.
  - now rewrite app_nil_r.
  - erewrite bind_Ret by apply chain_Some.
    rewrite IH, <- app_assoc. reflexivity.
Qed.

(** The earlier [QueryList] makes the same two queries, the count on its
    second handle and the fetch on its first, and returns the rows as
    fetched. *)
Lemma Earlier_QueryList_run dc tdc (c : Earlier.QueryListConfig.t) w :
  let cs := Spec.count_statement tdc (Earlier.QueryListConfig.Wheres c) in
  let fs := Spec.earlier_fetch_statement dc c in
  Earlier.QueryList (Some dc) (Some tdc) (Some c) w =
  match gorm.do_Count st cs (gorm.db_state w) with
  | ((_, Some e), sigma1) => Ret ((None, Some e), gorm.after w sigma1 [gorm.CallCount cs])
  | ((total, None), sigma1) =>
      match gorm.do_Find st fs sigma1 with
      | ((_, Some e), sigma2) =>
          Ret ((None, Some e), gorm.after w sigma2 [gorm.CallCount cs; gorm.CallFind fs])
      | ((rows, None), sigma2) =>
          Ret ((Some (QueryListResult.mk total (Earlier.QueryListConfig.Page c) rows), None),
               gorm.after w sigma2 [gorm.CallCount cs; gorm.CallFind fs])
      end
  end.
Proof.
  intros cs fs. unfold Earlier.QueryList.
  erewrite bind_Ret by reflexivity.
  erewrite bind_Ret by apply chain_Some.
  erewrite bind_Ret by apply Earlier_range_Where_run.
  rewrite <- app_assoc. fold cs.
  destruct (gorm.do_Count st cs (gorm.db_state w)) as [[total [e|]] sigma1] eqn:Hc;
    (erewrite bind_Ret by (apply Count_run, Hc)); cbv beta iota; [reflexivity|].
  erewrite bind_Ret by apply chain_Some.
  erewrite bind_Ret by apply Earlier_range_Where_run.
  do 3 erewrite bind_Ret by apply chain_Some.
  match goal with |- context [gorm.Find (Some ?s)] => replace s with fs end.
  2:{ subst fs. unfold Spec.earlier_fetch_statement, Spec.offset, Sprintf_s_s.
      rewrite <- !app_assoc. reflexivity. }
  destruct (gorm.do_Find st fs sigma1) as [[rows [e|]] sigma2] eqn:Hf;
    (erewrite bind_Ret by (apply Find_run; simpl; apply Hf));
    cbv beta iota; rewrite ?after_after; reflexivity.
Qed.

(** The earlier [Exist] looks only at the number the count left behind:
    the error of the count is dropped. *)
Lemma Earlier_Exist_drops_count_error db qc w count err sigma :
  gorm.do_Count st (Spec.earlier_exist_statement db qc) (gorm.db_state w)
    = ((count, err), sigma) ->
  Earlier.Exist (Some db) qc w
  = Ret ((Z.ltb 0 count, None),
         gorm.after w sigma [gorm.CallCount (Spec.earlier_exist_statement db qc)]).
Proof.
  intros Hc. unfold Earlier.Exist.
  run_step.
  assert (Hw : forall w1,
    match qc with
    | Some c =>
        match Earlier.QueryConfig.Wheres c with
        | Some wheres => Earlier.range_Where (st:=st) wheres (Some (db ++ [gorm.Model]))
        | None => mret (Some (db ++ [gorm.Model]))
        end
    | None => mret (Some (db ++ [gorm.Model]))
    end w1 = Ret (Some (Spec.earlier_exist_statement db qc), w1)).
  { intros w1. unfold Spec.earlier_exist_statement, Spec.count_statement.
    destruct qc as [[[wheres|]]|]; simpl; rewrite ?app_nil_r;
      try reflexivity.
    rewrite Earlier_range_Where_run, <- app_assoc. reflexivity. }
  erewrite bind_Ret by apply Hw.
  erewrite bind_Ret by (apply Count_run, Hc). reflexivity.
Qed.

(** The earlier [Delete] stops when [Exist] says no: with a count of zero
    it returns no error and makes no other store call. *)
Lemma Earlier_Delete_of_nothing_is_noop db qc w err sigma :
  gorm.do_Count st (Spec.earlier_exist_statement db qc) (gorm.db_state w)
    = ((0, err), sigma) ->
  Earlier.Delete (Some db) qc w
  = Ret (None, gorm.after w sigma [gorm.CallCount (Spec.earlier_exist_statement db qc)]).
Proof.
  intros Hc. unfold Earlier.Delete.
  erewrite bind_Ret by (eapply Earlier_Exist_drops_count_error, Hc).
  reflexivity.
Qed.

End EarlierFacts.

(** The earlier constructors hand out the package-level configuration:
    two calls return the same pointer, and a filter added through one is
    seen through the other. *)
Lemma Earlier_constructor_shares_default :
  let w := Some [Where.mk "name = ?" "a"] in
  exists p1 p2 h,
    (p1 ← Earlier.NewQueryListConfig;
     p2 ← Earlier.NewQueryListConfig;
     _ ← Earlier.QueryListConfig.WithWheres p1 w;
     mret (p1, p2)) Earlier.package_init_lists = Ret ((p1, p2), h)
    /\ p1 = p2
    /\ Earlier.QueryListConfig.Wheres <$> (p2 ≫= fun l => h !! l) = Some w.
Proof.
  eexists _, _, _. split; [cbv; reflexivity|]. split; reflexivity.
Qed.

(* ===================================================================== *)
(** ** Configuration builders *)
(* ===================================================================== *)

Section HeapFacts.
Context {V : Type}.
Implicit Types (h : gmap positive V) (l : positive).

Lemma alloc_run (v : V) h :
  alloc v h = Ret (Some (fresh (dom h)), <[fresh (dom h) := v]> h).
Proof. reflexivity. Qed.

Lemma alloc_inv (v : V) h p h' :
  alloc v h = Ret (p, h') ->
  exists l, p = Some l /\ h !! l = None /\ h' = <[l := v]> h.
Proof.
  rewrite alloc_run. intros [= <- <-]. exists (fresh (dom h)).
  repeat split. apply not_elem_of_dom, is_fresh.
Qed.

Lemma modify_run (f : V -> V) h l v :
  h !! l = Some v -> modify (Some l) f h = Ret (tt, <[l := f v]> h).
Proof. intros H. unfold modify. now rewrite H. Qed.

Lemma modify_inv (f : V -> V) h l u h' :
  modify (Some l) f h = Ret (u, h') ->
  exists v, h !! l = Some v /\ h' = <[l := f v]> h.
Proof.
  unfold modify. destruct (h !! l) as [v|]; [|discriminate].
  intros [= _ <-]. eauto.
Qed.

Lemma modify_frame (f : V -> V) h l u h' l' :
  modify (Some l) f h = Ret (u, h') -> l' <> l -> h' !! l' = h !! l'.
Proof.
  intros (v & _ & ->)%modify_inv Hne. now rewrite lookup_insert_ne.
Qed.

(** A builder method that assigns one field and returns its receiver. *)
Lemma assign_frame (f : V -> V) h l r h' :
  (_ ← modify (Some l) f; mret (Some l)) h = Ret (r, h') ->
  r = Some l /\ forall l', l' <> l -> h' !! l' = h !! l'.
Proof.
  unfold mbind, M_bind. destruct (modify (Some l) f h) as [[[] h1]|] eqn:Hm; [|discriminate].
  intros [= <- <-]. split; [reflexivity|]. intros l' Hne. eapply modify_frame; eauto.
Qed.

End HeapFacts.

Section BuilderClaims.
Context {T Arg : Type}.

Lemma run_ListOp_frame (op : Spec.ListOp) l
    (h : gmap positive (Pkg.QueryListConfig.t T Arg)) r h' :
  Spec.run_ListOp (Some l) op h = Ret (r, h') ->
  r = Some l /\ forall l', l' <> l -> h' !! l' = h !! l'.
Proof.
  destruct op; simpl;
    unfold Pkg.QueryListConfig.WithWheres, Pkg.QueryListConfig.WithPreloads,
      Pkg.QueryListConfig.WithAdviceItemFunc, Pkg.QueryListConfig.WithOrderBy,
      Pkg.QueryListConfig.WithOrder, Pkg.QueryListConfig.WithPageSize,
      Pkg.QueryListConfig.WithPage;
    try apply assign_frame.
  - destruct (Z.leb pageSize 0); [|apply assign_frame].
    intros [= <- <-]. auto.
  - destruct (Z.leb page 0); [|apply assign_frame].
    intros [= <- <-]. auto.
Qed.

Lemma run_ListOps_frame (ops : list Spec.ListOp) l :
  forall (h : gmap positive (Pkg.QueryListConfig.t T Arg)) r h',
    Spec.run_ListOps (Some l) ops h = Ret (r, h') ->
    r = Some l /\ forall l', l' <> l -> h' !! l' = h !! l'.
Proof.
  induction ops as [|op ops IH]; intros h r h'; simpl.
  - intros [= <- <-]. auto.
  - unfold mbind, M_bind.
    destruct (Spec.run_ListOp (Some l) op h) as [[r1 h1]|] eqn:Hop; [|discriminate].
    apply run_ListOp_frame in Hop as [-> Hframe1].
    intros [-> Hframe2]%IH. split; [reflexivity|].
    intros l' Hne. now rewrite Hframe2, Hframe1.
Qed.

Lemma run_PointOp_frame (op : Spec.PointOp) l
    (h : gmap positive (Pkg.QueryConfig.t Arg)) r h' :
  Spec.run_PointOp (Some l) op h = Ret (r, h') ->
  r = Some l /\ forall l', l' <> l -> h' !! l' = h !! l'.
Proof.
  destruct op; simpl;
    unfold Pkg.QueryConfig.WithWheres, Pkg.QueryConfig.WithPreloads; apply assign_frame.
Qed.

Lemma run_PointOps_frame (ops : list Spec.PointOp) l :
  forall (h : gmap positive (Pkg.QueryConfig.t Arg)) r h',
    Spec.run_PointOps (Some l) ops h = Ret (r, h') ->
    r = Some l /\ forall l', l' <> l -> h' !! l' = h !! l'.
Proof.
  induction ops as [|op ops IH]; intros h r h'; simpl.
  - intros [= <- <-]. auto.
  - unfold mbind, M_bind.
    destruct (Spec.run_PointOp (Some l) op h) as [[r1 h1]|] eqn:Hop; [|discriminate].
    apply run_PointOp_frame in Hop as [-> Hframe1].
    intros [-> Hframe2]%IH. split; [reflexivity|].
    intros l' Hne. now rewrite Hframe2, Hframe1.
Qed.

(** Two cells of which the second was allocated while the first was
    live. *)
Lemma alloc_twice {V : Type} (v : V) (h h1 h1' h2 : gmap positive V) l1 l2 :
  alloc v h = Ret (Some l1, h1) ->
  is_Some (h1' !! l1) ->
  alloc v h1' = Ret (Some l2, h2) ->
  h1 !! l1 = Some v /\ h2 !! l2 = Some v /\ l1 <> l2 /\ h2 !! l1 = h1' !! l1.
Proof.
  intros (l & [= <-] & _ & ->)%alloc_inv Hlive (l' & [= <-] & Hfresh & ->)%alloc_inv.
  assert (l1 <> l2) by (intros ->; rewrite Hfresh in Hlive; now destruct Hlive).
  rewrite !lookup_insert_eq, lookup_insert_ne by auto. auto.
Qed.

(** C4. Each constructor call allocates a configuration of its own holding
    the defaults (page size 10, page 1, DESC, "updated_at", empty
    sequences).  For two configurations from separate calls (the first
    still live at the second call) the pointers differ, the second call
    leaves the first configuration as it was, and whatever chain of
    [With*] calls is made on one, at any later time, the calls return
    their receiver and the other configuration keeps its fields. *)
Theorem constructors_return_independent_configurations :
  (forall h : gmap positive (Pkg.QueryListConfig.t T Arg),
      exists l h', Pkg.NewQueryListConfig h = Ret (Some l, h'))
  /\ (forall (h h1 h1' h2 : gmap positive (Pkg.QueryListConfig.t T Arg)) l1 l2,
        Pkg.NewQueryListConfig h = Ret (Some l1, h1) ->
        is_Some (h1' !! l1) ->
        Pkg.NewQueryListConfig h1' = Ret (Some l2, h2) ->
        h1 !! l1 = Some Spec.list_defaults
        /\ h2 !! l2 = Some Spec.list_defaults
        /\ l1 <> l2
        /\ h2 !! l1 = h1' !! l1
        /\ (forall (h' : gmap positive (Pkg.QueryListConfig.t T Arg)) ops r h3,
              Spec.run_ListOps (Some l1) ops h' = Ret (r, h3) ->
              r = Some l1 /\ h3 !! l2 = h' !! l2)
        /\ (forall (h' : gmap positive (Pkg.QueryListConfig.t T Arg)) ops r h3,
              Spec.run_ListOps (Some l2) ops h' = Ret (r, h3) ->
              r = Some l2 /\ h3 !! l1 = h' !! l1))
  /\ (forall h : gmap positive (Pkg.QueryConfig.t Arg),
        exists l h', Pkg.NewQueryConfig h = Ret (Some l, h'))
  /\ (forall (h h1 h1' h2 : gmap positive (Pkg.QueryConfig.t Arg)) l1 l2,
        Pkg.NewQueryConfig h = Ret (Some l1, h1) ->
        is_Some (h1' !! l1) ->
        Pkg.NewQueryConfig h1' = Ret (Some l2, h2) ->
        h1 !! l1 = Some Spec.point_defaults
        /\ h2 !! l2 = Some Spec.point_defaults
        /\ l1 <> l2
        /\ h2 !! l1 = h1' !! l1
        /\ (forall (h' : gmap positive (Pkg.QueryConfig.t Arg)) ops r h3,
              Spec.run_PointOps (Some l1) ops h' = Ret (r, h3) ->
              r = Some l1 /\ h3 !! l2 = h' !! l2)
        /\ (forall (h' : gmap positive (Pkg.QueryConfig.t Arg)) ops r h3,
              Spec.run_PointOps (Some l2) ops h' = Ret (r, h3) ->
              r = Some l2 /\ h3 !! l1 = h' !! l1)).
Proof.
  split; [|split; [|split]].
  - intros h. eexists _, _. apply alloc_run.
  - intros h h1 h1' h2 l1 l2 H1 Hlive H2.
    destruct (alloc_twice _ _ _ _ _ _ _ H1 Hlive H2) as (Hd1 & Hd2 & Hne & Hsame).
    split; [exact Hd1|]. split; [exact Hd2|]. split; [exact Hne|].
    split; [exact Hsame|]. split.
    + intros h0 ops r h3 [-> Hframe]%run_ListOps_frame. auto.
    + intros h0 ops r h3 [-> Hframe]%run_ListOps_frame. auto.
  - intros h. eexists _, _. apply alloc_run.
  - intros h h1 h1' h2 l1 l2 H1 Hlive H2.
    destruct (alloc_twice _ _ _ _ _ _ _ H1 Hlive H2) as (Hd1 & Hd2 & Hne & Hsame).
    split; [exact Hd1|]. split; [exact Hd2|]. split; [exact Hne|].
    split; [exact Hsame|]. split.
    + intros h0 ops r h3 [-> Hframe]%run_PointOps_frame. auto.
    + intros h0 ops r h3 [-> Hframe]%run_PointOps_frame. auto.
Qed.

(** C8. On a live configuration [WithPageSize] and [WithPage] called with
    a non-positive argument return the receiver and change nothing; called
    with a positive argument they return the receiver and set their field
    to the argument, leaving every other field and every other
    configuration as it was. *)
Theorem WithPageSize_WithPage_clamp (h : gmap positive (Pkg.QueryListConfig.t T Arg)) l c n :
  h !! l = Some c ->
  (n <= 0 ->
     Pkg.QueryListConfig.WithPageSize (Some l) n h = Ret (Some l, h)
     /\ Pkg.QueryListConfig.WithPage (Some l) n h = Ret (Some l, h))
  /\ (0 < n ->
        Pkg.QueryListConfig.WithPageSize (Some l) n h
        = Ret (Some l, <[l := Pkg.QueryListConfig.set_PageSize n c]> h)
        /\ Pkg.QueryListConfig.WithPage (Some l) n h
           = Ret (Some l, <[l := Pkg.QueryListConfig.set_Page n c]> h))
  /\ Pkg.QueryListConfig.set_PageSize n c
     = Pkg.QueryListConfig.mk n (Pkg.QueryListConfig.Page c) (Pkg.QueryListConfig.Order c)
         (Pkg.QueryListConfig.OrderBy c) (Pkg.QueryListConfig.Wheres c)
         (Pkg.QueryListConfig.AdviceItemFuncs c) (Pkg.QueryListConfig.Preloads c)
  /\ Pkg.QueryListConfig.set_Page n c
     = Pkg.QueryListConfig.mk (Pkg.QueryListConfig.PageSize c) n (Pkg.QueryListConfig.Order c)
         (Pkg.QueryListConfig.OrderBy c) (Pkg.QueryListConfig.Wheres c)
         (Pkg.QueryListConfig.AdviceItemFuncs c) (Pkg.QueryListConfig.Preloads c).
Proof.
  intros Hl. unfold Pkg.QueryListConfig.WithPageSize, Pkg.QueryListConfig.WithPage.
  split; [|split; [|split; reflexivity]].
  - intros Hn. destruct (Z.leb_spec n 0); [|lia]. split; reflexivity.
  - intros Hn. destruct (Z.leb_spec n 0); [lia|].
    split; (erewrite bind_Ret by (apply modify_run, Hl)); reflexivity.
Qed.

End BuilderClaims.

(** *** On concrete heaps *)

(** C4, from the empty heap: the two constructor calls return the cells 1
    and 2; after a filter and a page size were set through the first, the
    second still holds the defaults. *)
Lemma constructors_return_independent_configurations_witness :
  exists h1 h2 h3 : gmap positive (Pkg.QueryListConfig.t Z Z),
    Pkg.NewQueryListConfig ∅ = Ret (Some 1%positive, h1)
    /\ Pkg.NewQueryListConfig h1 = Ret (Some 2%positive, h2)
    /\ Spec.run_ListOps (Some 1%positive)
         [Spec.OpWheres (Some [MemStore.at_least 2]); Spec.OpPageSize 50] h2
       = Ret (Some 1%positive, h3)
    /\ h3 !! 1%positive
       = Some (Pkg.QueryListConfig.mk 50 1 Order.DESC "updated_at"
                 (Some [MemStore.at_least 2]) (Some []) (Some []))
    /\ h3 !! 2%positive = Some Spec.list_defaults.
Proof.
  set (h1 := <[1%positive := Spec.list_defaults]> ∅
             : gmap positive (Pkg.QueryListConfig.t Z Z)).
  set (h2 := <[2%positive := Spec.list_defaults]> h1).
  assert (H1 : Pkg.NewQueryListConfig ∅ = Ret (Some 1%positive, h1)) by reflexivity.
  assert (Hlive : is_Some (h1 !! 1%positive)) by (eexists; reflexivity).
  assert (H2 : Pkg.NewQueryListConfig h1 = Ret (Some 2%positive, h2)) by reflexivity.
  destruct (@constructors_return_independent_configurations Z Z) as (_ & Hlist & _).
  destruct (Hlist ∅ h1 h1 h2 1%positive 2%positive H1 Hlive H2)
    as (_ & Hd2 & _ & _ & Hkeep & _).
  exists h1, h2. eexists.
  split; [exact H1|]. split; [exact H2|]. split; [reflexivity|].
  split; [reflexivity|].
  destruct (Hkeep h2 [Spec.OpWheres (Some [MemStore.at_least 2]); Spec.OpPageSize 50]
              _ _ eq_refl) as [_ ->].
  exact Hd2.
Defined.

(** C8, on the configuration the constructor returns: zero and negative
    arguments leave page size 10 and page 1; 25 and 3 are taken. *)
Lemma WithPageSize_WithPage_clamp_witness :
  let h : gmap positive (Pkg.QueryListConfig.t Z Z) :=
    <[1%positive := Spec.list_defaults]> ∅ in
  Pkg.NewQueryListConfig ∅ = Ret (Some 1%positive, h)
  /\ Pkg.QueryListConfig.WithPageSize (Some 1%positive) 0 h = Ret (Some 1%positive, h)
  /\ Pkg.QueryListConfig.WithPageSize (Some 1%positive) (-5) h = Ret (Some 1%positive, h)
  /\ Pkg.QueryListConfig.WithPage (Some 1%positive) 0 h = Ret (Some 1%positive, h)
  /\ Pkg.QueryListConfig.PageSize <$> h !! 1%positive = Some 10
  /\ Pkg.QueryListConfig.Page <$> h !! 1%positive = Some 1
  /\ Pkg.QueryListConfig.WithPageSize (Some 1%positive) 25 h
     = Ret (Some 1%positive,
            <[1%positive := Pkg.QueryListConfig.mk 25 1 Order.DESC "updated_at"
                              (Some []) (Some []) (Some [])]> h)
  /\ Pkg.QueryListConfig.WithPage (Some 1%positive) 3 h
     = Ret (Some 1%positive,
            <[1%positive := Pkg.QueryListConfig.mk 10 3 Order.DESC "updated_at"
                              (Some []) (Some []) (Some [])]> h).
Proof.
  intros h.
  assert (Hl : h !! 1%positive = Some Spec.list_defaults) by reflexivity.
  split; [reflexivity|].
  split; [apply (WithPageSize_WithPage_clamp h 1%positive _ 0 Hl); lia|].
  split; [apply (WithPageSize_WithPage_clamp h 1%positive _ (-5) Hl); lia|].
  split; [apply (WithPageSize_WithPage_clamp h 1%positive _ 0 Hl); lia|].
  split; [reflexivity|]. split; [reflexivity|].
  split.
  - apply (WithPageSize_WithPage_clamp h 1%positive _ 25 Hl). lia.
  - apply (WithPageSize_WithPage_clamp h 1%positive _ 3 Hl). lia.
Defined.

(* ===================================================================== *)
(** * Further properties *)
(* ===================================================================== *)

(** ** Builders of [pkg] *)

Section BuilderLaws.
Context {T Arg : Type}.
Implicit Types (h : gmap positive (Pkg.QueryListConfig.t T Arg)) (l : positive)
  (c : Pkg.QueryListConfig.t T Arg) (op : Spec.ListOp (T:=T) (Arg:=Arg)).

Lemma assign_run {V : Type} (f : V -> V) (h : gmap positive V) l v :
  h !! l = Some v ->
  (_ ← modify (Some l) f; mret (Some l)) h = Ret (Some l, <[l := f v]> h).
Proof. intros H. erewrite bind_Ret by (apply modify_run, H). reflexivity. Qed.

(** On a live receiver a builder call returns the receiver and rewrites
    its cell with the call's effect. *)
Lemma run_ListOp_effect op h l c :
  h !! l = Some c ->
  Spec.run_ListOp (Some l) op h = Ret (Some l, <[l := Builders.effect op c]> h).
Proof.
  intros H. destruct op as [ws|ps|fs|ob|o|n|n]; simpl;
    unfold Pkg.QueryListConfig.WithWheres, Pkg.QueryListConfig.WithPreloads,
      Pkg.QueryListConfig.WithAdviceItemFunc, Pkg.QueryListConfig.WithOrderBy,
      Pkg.QueryListConfig.WithOrder, Pkg.QueryListConfig.WithPageSize,
      Pkg.QueryListConfig.WithPage;
    try (now rewrite (assign_run _ h l c H)).
  - destruct (Z.leb n 0); [|now rewrite (assign_run _ h l c H)].
    now rewrite insert_id.
  - destruct (Z.leb n 0); [|now rewrite (assign_run _ h l c H)].
    now rewrite insert_id.
Qed.

Lemma run_ListOps_effect ops : forall h l c,
  h !! l = Some c ->
  Spec.run_ListOps (Some l) ops h
  = Ret (Some l, <[l := foldl (fun c op => Builders.effect op c) c ops]> h).
Proof.
  induction ops as [|op ops IH]; intros h l c H; simpl.
  - now rewrite insert_id.
  - erewrite bind_Ret by (apply run_ListOp_effect, H).
    erewrite IH by apply lookup_insert_eq.
    now rewrite insert_insert_eq.
Qed.

Lemma effect_keeps_positive_paging op c :
  Builders.positive_paging c -> Builders.positive_paging (Builders.effect op c).
Proof.
  unfold Builders.positive_paging. intros [Hs Hp].
  destruct op as [ws|ps|fs|ob|o|n|n]; simpl; auto.
  - destruct (Z.leb_spec n 0); simpl; auto with zarith.
  - destruct (Z.leb_spec n 0); simpl; auto with zarith.
Qed.

Lemma effects_keep_positive_paging ops : forall c,
  Builders.positive_paging c ->
  Builders.positive_paging (foldl (fun c op => Builders.effect op c) c ops).
Proof.
  induction ops as [|op ops IH]; intros c H; simpl; [exact H|].
  apply IH, effect_keeps_positive_paging, H.
Qed.

(** X1. A configuration made by [NewQueryListConfig] and changed only
    through the [With*] methods always has a positive page size and a
    positive page: no chain of builder calls panics on it, every call
    returns the receiver, and the cell keeps both fields positive. *)
Theorem built_configurations_keep_positive_paging h l h1 (ops : list Spec.ListOp) :
  Pkg.NewQueryListConfig h = Ret (Some l, h1) ->
  exists h2 c,
    Spec.run_ListOps (Some l) ops h1 = Ret (Some l, h2)
    /\ h2 !! l = Some c
    /\ 0 < Pkg.QueryListConfig.PageSize c
    /\ 0 < Pkg.QueryListConfig.Page c.
Proof.
  intros (l' & [= <-] & _ & ->)%alloc_inv.
  eexists _, _. split.
  { apply run_ListOps_effect, lookup_insert_eq. }
  split; [apply lookup_insert_eq|].
  apply effects_keep_positive_paging. split; simpl; lia.
Qed.

Lemma range_append {A} (s xs : slice A) : range (append s xs) = range s ++ range xs.
Proof.
  unfold append. destruct s as [s|], (range xs) as [|x l] eqn:Hx; simpl;
    rewrite ?app_nil_r; reflexivity.
Qed.

(** X2. [WithWheres], [WithPreloads] and [WithAdviceItemFunc] accumulate:
    after any number of calls the field holds what it held before followed
    by the arguments of the calls, in call order, and the calls leave the
    paging and ordering fields alone. *)
Theorem sequence_builders_accumulate h l c
    (wheres : list (slice (Where.t Arg))) (preloads : list (slice string))
    (funcs : list (slice (AdviceItemFunc T))) :
  h !! l = Some c ->
  exists h' c',
    Spec.run_ListOps (Some l)
      (map Spec.OpWheres wheres ++ map Spec.OpPreloads preloads
         ++ map Spec.OpAdviceItemFunc funcs) h = Ret (Some l, h')
    /\ h' !! l = Some c'
    /\ range (Pkg.QueryListConfig.Wheres c')
       = range (Pkg.QueryListConfig.Wheres c) ++ concat (map range wheres)
    /\ range (Pkg.QueryListConfig.Preloads c')
       = range (Pkg.QueryListConfig.Preloads c) ++ concat (map range preloads)
    /\ range (Pkg.QueryListConfig.AdviceItemFuncs c')
       = range (Pkg.QueryListConfig.AdviceItemFuncs c) ++ concat (map range funcs)
    /\ Pkg.QueryListConfig.PageSize c' = Pkg.QueryListConfig.PageSize c
    /\ Pkg.QueryListConfig.Page c' = Pkg.QueryListConfig.Page c
    /\ Pkg.QueryListConfig.Order c' = Pkg.QueryListConfig.Order c
    /\ Pkg.QueryListConfig.OrderBy c' = Pkg.QueryListConfig.OrderBy c.
Proof.
  intros H. eexists _, _. split; [apply run_ListOps_effect, H|].
  split; [apply lookup_insert_eq|].
  rewrite !foldl_app.
  assert (Hw : forall ws c0,
    let c1 := foldl (fun c op => Builders.effect op c) c0 (map Spec.OpWheres ws) in
    range (Pkg.QueryListConfig.Wheres c1)
      = range (Pkg.QueryListConfig.Wheres c0) ++ concat (map range ws)
    /\ Pkg.QueryListConfig.Preloads c1 = Pkg.QueryListConfig.Preloads c0
    /\ Pkg.QueryListConfig.AdviceItemFuncs c1 = Pkg.QueryListConfig.AdviceItemFuncs c0
    /\ Pkg.QueryListConfig.PageSize c1 = Pkg.QueryListConfig.PageSize c0
    /\ Pkg.QueryListConfig.Page c1 = Pkg.QueryListConfig.Page c0
    /\ Pkg.QueryListConfig.Order c1 = Pkg.QueryListConfig.Order c0
    /\ Pkg.QueryListConfig.OrderBy c1 = Pkg.QueryListConfig.OrderBy c0).
  { induction ws as [|x ws IH]; intros c0; cbn [map foldl concat].
    - now rewrite app_nil_r.
    - destruct (IH (Builders.effect (Spec.OpWheres x) c0)) as (-> & -> & -> & -> & -> & -> & ->).
      simpl. now rewrite range_append, <- app_assoc. }
  assert (Hp : forall ps c0,
    let c1 := foldl (fun c op => Builders.effect op c) c0 (map Spec.OpPreloads ps) in
    Pkg.QueryListConfig.Wheres c1 = Pkg.QueryListConfig.Wheres c0
    /\ range (Pkg.QueryListConfig.Preloads c1)
       = range (Pkg.QueryListConfig.Preloads c0) ++ concat (map range ps)
    /\ Pkg.QueryListConfig.AdviceItemFuncs c1 = Pkg.QueryListConfig.AdviceItemFuncs c0
    /\ Pkg.QueryListConfig.PageSize c1 = Pkg.QueryListConfig.PageSize c0
    /\ Pkg.QueryListConfig.Page c1 = Pkg.QueryListConfig.Page c0
    /\ Pkg.QueryListConfig.Order c1 = Pkg.QueryListConfig.Order c0
    /\ Pkg.QueryListConfig.OrderBy c1 = Pkg.QueryListConfig.OrderBy c0).
  { induction ps as [|x ps IH]; intros c0; cbn [map foldl concat].
    - now rewrite app_nil_r.
    - destruct (IH (Builders.effect (Spec.OpPreloads x) c0)) as (-> & -> & -> & -> & -> & -> & ->).
      simpl. now rewrite range_append, <- app_assoc. }
  assert (Hf : forall fs c0,
    let c1 := foldl (fun c op => Builders.effect op c) c0 (map Spec.OpAdviceItemFunc fs) in
    Pkg.QueryListConfig.Wheres c1 = Pkg.QueryListConfig.Wheres c0
    /\ Pkg.QueryListConfig.Preloads c1 = Pkg.QueryListConfig.Preloads c0
    /\ range (Pkg.QueryListConfig.AdviceItemFuncs c1)
       = range (Pkg.QueryListConfig.AdviceItemFuncs c0) ++ concat (map range fs)
    /\ Pkg.QueryListConfig.PageSize c1 = Pkg.QueryListConfig.PageSize c0
    /\ Pkg.QueryListConfig.Page c1 = Pkg.QueryListConfig.Page c0
    /\ Pkg.QueryListConfig.Order c1 = Pkg.QueryListConfig.Order c0
    /\ Pkg.QueryListConfig.OrderBy c1 = Pkg.QueryListConfig.OrderBy c0).
  { induction fs as [|x fs IH]; intros c0; cbn [map foldl concat].
    - now rewrite app_nil_r.
    - destruct (IH (Builders.effect (Spec.OpAdviceItemFunc x) c0))
        as (-> & -> & -> & -> & -> & -> & ->).
      simpl. now rewrite range_append, <- app_assoc. }
  cbv zeta in Hw, Hp, Hf.
  destruct (Hf funcs (foldl (fun c op => Builders.effect op c)
                        (foldl (fun c op => Builders.effect op c) c (map Spec.OpWheres wheres))
                        (map Spec.OpPreloads preloads)))
    as (-> & -> & -> & -> & -> & -> & ->).
  destruct (Hp preloads (foldl (fun c op => Builders.effect op c) c (map Spec.OpWheres wheres)))
    as (-> & -> & -> & -> & -> & -> & ->).
  destruct (Hw wheres c) as (-> & -> & -> & -> & -> & -> & ->).
  repeat split; reflexivity.
Qed.


(** X4. On a nil receiver [WithPageSize] and [WithPage] return nil without
    touching anything when the argument is not positive, and panic
    otherwise; every other builder method panics on a nil receiver. *)
Theorem builders_on_a_nil_receiver h :
  (forall n, Pkg.QueryListConfig.WithPageSize None n h
             = if Z.leb n 0 then Ret (None, h) else Panic)
  /\ (forall n, Pkg.QueryListConfig.WithPage None n h
                = if Z.leb n 0 then Ret (None, h) else Panic)
  /\ (forall wheres, Pkg.QueryListConfig.WithWheres None wheres h = Panic)
  /\ (forall preloads, Pkg.QueryListConfig.WithPreloads None preloads h = Panic)
  /\ (forall funcs, Pkg.QueryListConfig.WithAdviceItemFunc None funcs h = Panic)
  /\ (forall orderBy, Pkg.QueryListConfig.WithOrderBy None orderBy h = Panic)
  /\ (forall order, Pkg.QueryListConfig.WithOrder None order h = Panic).
Proof.
  repeat split; intros n;
    unfold Pkg.QueryListConfig.WithPageSize, Pkg.QueryListConfig.WithPage;
    try destruct (Z.leb n 0); reflexivity.
Qed.

End BuilderLaws.

(** ** Engine of [pkg] *)

Lemma advise_is_map_through {T : Type} (funcs : list (AdviceItemFunc T)) : forall rows,
  Spec.advise funcs rows = map (Hooks.through funcs) rows.
Proof.
  induction funcs as [|f funcs IH]; intros rows.
  - simpl. now rewrite map_id.
  - change (Spec.advise (f :: funcs) rows)
      with (Spec.advise funcs (Spec.advise_with f rows)).
    rewrite IH. unfold Spec.advise_with. rewrite map_map. reflexivity.
Qed.

Section EngineLaws.
Context {T Arg : Type} (st : gorm.Store T Arg).
Implicit Types (db dc tdc : gorm.Statement Arg) (w : gorm.World st).

Lemma Create_run db (t : T) w :
  Pkg.Create (Some db) t w
  = Ret (fst (gorm.do_Create st (db ++ [gorm.Model]) t (gorm.db_state w)),
         gorm.after w (snd (gorm.do_Create st (db ++ [gorm.Model]) t (gorm.db_state w)))
           [gorm.CallCreate (db ++ [gorm.Model]) t]).
Proof.
  unfold Pkg.Create. run_step. unfold gorm.Create, gorm.finish.
  now destruct (gorm.do_Create st _ t _).
Qed.

Lemma Update_run db (pt : option T) w :
  Pkg.Update (Some db) pt w
  = Ret (fst (gorm.do_Save st db pt (gorm.db_state w)),
         gorm.after w (snd (gorm.do_Save st db pt (gorm.db_state w)))
           [gorm.CallSave db pt]).
Proof.
  unfold Pkg.Update, gorm.Save, gorm.finish.
  now destruct (gorm.do_Save st db pt _).
Qed.

(** X5. On a live handle [Create] binds the model and inserts the value,
    [Update] saves on the caller's handle as it is and passes its pointer
    through, nil included; each makes this one store call, returns the
    store's error unchanged and logs nothing. *)
Theorem Create_and_Update_return_the_store_error db (t : T) (pt : option T) w :
  Pkg.Create (Some db) t w
  = Ret (fst (gorm.do_Create st (db ++ [gorm.Model]) t (gorm.db_state w)),
         gorm.after w (snd (gorm.do_Create st (db ++ [gorm.Model]) t (gorm.db_state w)))
           [gorm.CallCreate (db ++ [gorm.Model]) t])
  /\ Pkg.Update (Some db) pt w
     = Ret (fst (gorm.do_Save st db pt (gorm.db_state w)),
            gorm.after w (snd (gorm.do_Save st db pt (gorm.db_state w)))
              [gorm.CallSave db pt]).
Proof. split; [apply Create_run | apply Update_run]. Qed.

(** X6. When the lookup of [Delete] fails with an error that is not "record
    not found", [Delete] returns that error and asks the store for
    nothing else: no delete is attempted. *)
Theorem Delete_stops_on_a_lookup_error db (qc : option (Pkg.QueryConfig.t Arg)) w t e sigma :
  gorm.do_First st (Spec.point_statement db qc) (gorm.db_state w) = ((t, Some e), sigma) ->
  errors_Is_ErrRecordNotFound e = false ->
  Pkg.Delete (Some db) qc w
  = Ret (Some e, gorm.after w sigma [gorm.CallFirst (Spec.point_statement db qc)]).
Proof. apply Delete_run_fails. Qed.

(** X7. [Exist] looks at the filters only: two configurations with the
    same filters give the same answer whatever their preloads. *)
Theorem Exist_ignores_preloads db (c1 c2 : Pkg.QueryConfig.t Arg) w :
  range (Pkg.QueryConfig.Wheres c1) = range (Pkg.QueryConfig.Wheres c2) ->
  Pkg.Exist (Some db) (Some c1) w = Pkg.Exist (Some db) (Some c2) w.
Proof.
  intros H. rewrite !Exist_run.
  unfold Spec.exist_statement, Spec.count_statement. simpl. now rewrite H.
Qed.

(** X8. A successful [QueryList] has counted without error on the world
    it was called in and fetched without error on the store the count
    left; its data are the rows of that very fetch, each taken through
    all hooks in configuration order (what a hook returns is what the
    next hook gets), in the order and number they were fetched. *)
Theorem QueryList_rows_pass_through_the_hooks dc tdc (c : Pkg.QueryListConfig.t T Arg) w qr w' :
  Pkg.QueryList (Some dc) (Some tdc) (Some c) w = Ret ((Some qr, None), w') ->
  let counted :=
    gorm.do_Count st (Spec.count_statement dc (Pkg.QueryListConfig.Wheres c))
      (gorm.db_state w) in
  let fetched := gorm.do_Find st (Spec.fetch_statement tdc c) (snd counted) in
  snd (fst counted) = None
  /\ snd (fst fetched) = None
  /\ QueryListResult.Data qr
     = map (Hooks.through (range (Pkg.QueryListConfig.AdviceItemFuncs c))) (fst (fst fetched))
  /\ length (QueryListResult.Data qr) = length (fst (fst fetched))
  /\ gorm.db_state w' = snd fetched.
Proof.
  intros (total & s1 & rows & s2 & Hc & Hf & -> & ->)%QueryList_success_inv.
  cbv zeta. rewrite Hc. simpl. rewrite Hf. simpl.
  rewrite advise_length. repeat split. apply advise_is_map_through.
Qed.

(** X9. The fetch of a successful [QueryList] is the last store call and
    ends with the offset and the limit.  On page 1 the offset is 0 whatever
    the page size; whenever [(Page - 1) * PageSize] fits an [int] the
    offset is that product. *)
Theorem QueryList_offset dc tdc (c : Pkg.QueryListConfig.t T Arg) w qr w' :
  Pkg.QueryList (Some dc) (Some tdc) (Some c) w = Ret ((Some qr, None), w') ->
  exists pre off,
    last (gorm.calls w')
    = Some (gorm.CallFind (pre ++ [gorm.Offset off;
                                    gorm.Limit (Pkg.QueryListConfig.PageSize c)]))
    /\ (Pkg.QueryListConfig.Page c = 1 -> off = 0)
    /\ (in_int (Pkg.QueryListConfig.Page c - 1) ->
        in_int ((Pkg.QueryListConfig.Page c - 1) * Pkg.QueryListConfig.PageSize c) ->
        off = (Pkg.QueryListConfig.Page c - 1) * Pkg.QueryListConfig.PageSize c).
Proof.
  intros (total & s1 & rows & s2 & _ & _ & _ & ->)%QueryList_success_inv.
  exists (tdc ++ [gorm.Model]
            ++ Spec.where_clauses (range (Pkg.QueryListConfig.Wheres c))
            ++ map gorm.Preload (range (Pkg.QueryListConfig.Preloads c))
            ++ [gorm.Order (Pkg.QueryListConfig.OrderBy c +:+ " "
                              +:+ Order.String (Pkg.QueryListConfig.Order c))]),
    (Spec.offset (Pkg.QueryListConfig.Page c) (Pkg.QueryListConfig.PageSize c)).
  split; [|split].
  - simpl.
    match goal with |- last (?l ++ [?a; ?b]) = _ =>
      replace (l ++ [a; b]) with ((l ++ [a]) ++ [b]) by now rewrite <- app_assoc
    end.
    rewrite last_snoc. unfold Spec.fetch_statement.
    do 2 f_equal. rewrite <- !app_assoc. simpl. now rewrite <- !app_assoc.
  - intros ->. reflexivity.
  - apply offset_exact.
Qed.


End EngineLaws.

(** X10. [Order.String] prints "asc" for [ASC] and "desc" for every other
    value, whether [DESC] or an integer that is no declared order. *)
Theorem Order_String_is_asc_only_for_ASC (o : Order.t) :
  (Order.String o = "asc" <-> o = Order.ASC)
  /\ (Order.String o = "desc" <-> o <> Order.ASC).
Proof.
  unfold Order.String. destruct (Z.eqb_spec o Order.ASC) as [->|Hne].
  - split; split; try reflexivity; try discriminate; congruence.
  - split; split; try reflexivity; try discriminate; congruence.
Qed.

(** ** The earlier iteration against [pkg] *)

Section EarlierLaws.
Context {T : Type} (st : gorm.Store T string).
Implicit Types (db dc tdc : gorm.Statement string) (w : gorm.World st).

Lemma earlier_wheres_run (qc : option Earlier.QueryConfig.t) db w :
  match qc with
  | Some c =>
      match Earlier.QueryConfig.Wheres c with
      | Some wheres => Earlier.range_Where (st:=st) wheres (Some (db ++ [gorm.Model]))
      | None => mret (Some (db ++ [gorm.Model]))
      end
  | None => mret (Some (db ++ [gorm.Model]))
  end w = Ret (Some (Spec.earlier_exist_statement db qc), w).
Proof.
  unfold Spec.earlier_exist_statement, Spec.count_statement.
  destruct qc as [[[wheres|]]|]; simpl; rewrite ?app_nil_r; try reflexivity.
  rewrite Earlier_range_Where_run, <- app_assoc. reflexivity.
Qed.

Lemma earlier_statements_agree db (qc : option Earlier.QueryConfig.t) :
  Spec.exist_statement db (Compare.point_config <$> qc) = Spec.earlier_exist_statement db qc
  /\ Spec.point_statement db (Compare.point_config <$> qc) = Spec.earlier_exist_statement db qc.
Proof.
  unfold Spec.exist_statement, Spec.point_statement, Spec.earlier_exist_statement,
    Spec.count_statement.
  destruct qc as [c|]; simpl; rewrite ?app_nil_r; auto.
Qed.

Lemma Earlier_Query_on_a_live_handle db (qc : option Earlier.QueryConfig.t) w :
  Earlier.Query (Some db) qc w = Pkg.Query (Some db) (Compare.point_config <$> qc) w.
Proof.
  rewrite Query_run, (proj2 (earlier_statements_agree db qc)).
  unfold Earlier.Query. run_step.
  erewrite bind_Ret by apply earlier_wheres_run.
  destruct (gorm.do_First st _ _) as [[t [e|]] sigma] eqn:Hf;
    (erewrite bind_Ret by (apply First_run, Hf)); cbv beta iota.
  - now destruct (errors_Is_ErrRecordNotFound e).
  - reflexivity.
Qed.

(** X16. The earlier [Query] is the [Query] of [pkg] on the same filters
    without preloads, for a nil and for a live handle, for a nil and for a
    given configuration: same result, same store calls. *)
Theorem Earlier_Query_is_Query_without_preloads
    (p : gorm.DB string) (qc : option Earlier.QueryConfig.t) w :
  Earlier.Query (st:=st) p qc w = Pkg.Query p (Compare.point_config <$> qc) w.
Proof. destruct p as [db|]; [apply Earlier_Query_on_a_live_handle | reflexivity]. Qed.

(** X12. On a live handle the earlier [Exist] never returns an error: it
    answers from the number the count left behind and drops the count's
    error.  It agrees with the [Exist] of [pkg] exactly when the count
    reports no error. *)
Theorem Earlier_Exist_hides_a_failed_count db (qc : option Earlier.QueryConfig.t) w :
  let s := Spec.earlier_exist_statement db qc in
  let answer := gorm.do_Count st s (gorm.db_state w) in
  Earlier.Exist (Some db) qc w
  = Ret ((Z.ltb 0 (fst (fst answer)), None), gorm.after w (snd answer) [gorm.CallCount s])
  /\ (snd (fst answer) = None <->
      Earlier.Exist (Some db) qc w = Pkg.Exist (Some db) (Compare.point_config <$> qc) w).
Proof.
  intros s answer.
  assert (He : Earlier.Exist (Some db) qc w
               = Ret ((Z.ltb 0 (fst (fst answer)), None),
                      gorm.after w (snd answer) [gorm.CallCount s])).
  { subst answer. destruct (gorm.do_Count st s (gorm.db_state w)) as [[n err] sigma] eqn:Hc.
    eapply Earlier_Exist_drops_count_error, Hc. }
  split; [exact He|].
  rewrite He, Exist_run, (proj1 (earlier_statements_agree db qc)). fold s answer.
  destruct answer as [[n [e|]] sigma]; simpl; split; try reflexivity; discriminate.
Qed.

(** X13. The earlier [Delete] first counts.  When the count leaves nothing
    positive behind, also because it failed, [Delete] returns no error and
    makes no other store call.  When it leaves a positive number,
    [Delete] goes on exactly as the [Delete] of [pkg] does from there:
    lookup, then delete of what the lookup found, of a nil row when the
    row has gone in between. *)
Theorem Earlier_Delete_counts_first db (qc : option Earlier.QueryConfig.t) w :
  let s := Spec.earlier_exist_statement db qc in
  (forall n err sigma,
      gorm.do_Count st s (gorm.db_state w) = ((n, err), sigma) ->
      n <= 0 ->
      Earlier.Delete (Some db) qc w = Ret (None, gorm.after w sigma [gorm.CallCount s]))
  /\ (forall n err sigma,
        gorm.do_Count st s (gorm.db_state w) = ((n, err), sigma) ->
        0 < n ->
        Earlier.Delete (Some db) qc w
        = Pkg.Delete (Some db) (Compare.point_config <$> qc)
            (gorm.after w sigma [gorm.CallCount s])).
Proof.
  intros s. split; intros n err sigma Hc Hn; unfold Earlier.Delete.
  - erewrite bind_Ret by (eapply Earlier_Exist_drops_count_error, Hc).
    destruct (Z.ltb_spec 0 n); [lia|]. reflexivity.
  - erewrite bind_Ret by (eapply Earlier_Exist_drops_count_error, Hc).
    destruct (Z.ltb_spec 0 n); [|lia].
    change (negb true) with false. cbv beta iota.
    unfold Pkg.Delete, mbind, M_bind.
    now rewrite Earlier_Query_on_a_live_handle.
Qed.

Lemma Earlier_QueryList_on_live_handles dc tdc (c : Earlier.QueryListConfig.t) w :
  Earlier.QueryList (Some dc) (Some tdc) (Some c) w
  = Pkg.QueryList (Some tdc) (Some dc) (Some (Compare.list_config c)) w.
Proof.
  rewrite Earlier_QueryList_run, QueryList_run. cbv zeta.
  change (Pkg.QueryListConfig.Wheres (Compare.list_config (T:=T) c))
    with (Earlier.QueryListConfig.Wheres c).
  destruct (gorm.do_Count st _ _) as [[total [e|]] sigma1]; [reflexivity|].
  replace (Spec.fetch_statement dc (Compare.list_config (T:=T) c))
    with (Spec.earlier_fetch_statement dc c) by reflexivity.
  destruct (gorm.do_Find st _ _) as [[rows [e|]] sigma2]; [reflexivity|].
  simpl. now rewrite add_log_nil.
Qed.

Lemma QueryList_without_fetch_handle tdc (c : Pkg.QueryListConfig.t T string) w :
  Pkg.QueryList (st:=st) (Some tdc) None (Some c) w =
  match gorm.do_Count st (Spec.count_statement tdc (Pkg.QueryListConfig.Wheres c))
          (gorm.db_state w) with
  | ((_, Some e), sigma) =>
      Ret ((None, Some e),
           gorm.after w sigma
             [gorm.CallCount (Spec.count_statement tdc (Pkg.QueryListConfig.Wheres c))])
  | ((_, None), _) => Panic
  end.
Proof.
  unfold Pkg.QueryList.
  run_step. run_step. run_step. rewrite <- app_assoc.
  fold (Spec.count_statement tdc (Pkg.QueryListConfig.Wheres c)).
  destruct (gorm.do_Count st _ _) as [[total [e|]] sigma] eqn:Hc;
    (erewrite bind_Ret by (apply Count_run, Hc)); reflexivity.
Qed.

Lemma Earlier_QueryList_without_fetch_handle tdc (c : Earlier.QueryListConfig.t) w :
  Earlier.QueryList (st:=st) None (Some tdc) (Some c) w =
  match gorm.do_Count st (Spec.count_statement tdc (Earlier.QueryListConfig.Wheres c))
          (gorm.db_state w) with
  | ((_, Some e), sigma) =>
      Ret ((None, Some e),
           gorm.after w sigma
             [gorm.CallCount (Spec.count_statement tdc (Earlier.QueryListConfig.Wheres c))])
  | ((_, None), _) => Panic
  end.
Proof.
  unfold Earlier.QueryList.
  run_step. run_step. erewrite bind_Ret by apply Earlier_range_Where_run.
  rewrite <- app_assoc.
  fold (Spec.count_statement tdc (Earlier.QueryListConfig.Wheres c)).
  destruct (gorm.do_Count st _ _) as [[total [e|]] sigma] eqn:Hc;
    (erewrite bind_Ret by (apply Count_run, Hc)); reflexivity.
Qed.

(** X15. The earlier [QueryList] is the [QueryList] of [pkg] with the two
    handles exchanged, run on the same configuration without hooks and
    preloads: it counts on its second handle and fetches on its first.
    This holds for nil handles and a nil configuration as well. *)
Theorem Earlier_QueryList_exchanges_the_handles
    (p q : gorm.DB string) (qc : option Earlier.QueryListConfig.t) w :
  Earlier.QueryList (st:=st) p q qc w = Pkg.QueryList q p (Compare.list_config <$> qc) w.
Proof.
  destruct qc as [c|]; [|reflexivity].
  destruct q as [tdc|]; [|reflexivity].
  destruct p as [dc|]; [apply Earlier_QueryList_on_live_handles|].
  simpl. now rewrite Earlier_QueryList_without_fetch_handle, QueryList_without_fetch_handle.
Qed.

End EarlierLaws.

(** X14. The constructors of the earlier iteration hand out the
    package-level configuration: they allocate nothing, two calls return
    the same pointer, and filters added through the pointer of one call
    are read through the pointer of the other. *)
Theorem Earlier_constructors_share_one_configuration :
  (forall (h : gmap positive Earlier.QueryListConfig.t) c wheres,
      h !! 1%positive = Some c ->
      (p1 ← Earlier.NewQueryListConfig;
       p2 ← Earlier.NewQueryListConfig;
       _ ← Earlier.QueryListConfig.WithWheres p1 wheres;
       mret (p1, p2)) h
      = Ret ((Earlier.defaultQuery, Earlier.defaultQuery),
             <[1%positive := Earlier.QueryListConfig.set_Wheres
                               (append (Earlier.QueryListConfig.Wheres c) wheres) c]> h))
  /\ (forall (h : gmap positive Earlier.QueryConfig.t) c wheres,
        h !! 1%positive = Some c ->
        (p1 ← Earlier.NewQueryConfig;
         p2 ← Earlier.NewQueryConfig;
         _ ← Earlier.QueryConfig.WithWheres p1 wheres;
         mret (p1, p2)) h
        = Ret ((Earlier.defaultQueryConfig, Earlier.defaultQueryConfig),
               <[1%positive := Earlier.QueryConfig.mk
                                 (append (Earlier.QueryConfig.Wheres c) wheres)]> h)).
Proof.
  split; intros h c wheres H.
  - do 2 (erewrite bind_Ret by reflexivity).
    unfold Earlier.QueryListConfig.WithWheres, Earlier.defaultQuery.
    erewrite bind_Ret by (rewrite (assign_run _ h 1%positive c H); reflexivity).
    reflexivity.
  - do 2 (erewrite bind_Ret by reflexivity).
    unfold Earlier.QueryConfig.WithWheres, Earlier.defaultQueryConfig.
    erewrite bind_Ret by (rewrite (assign_run _ h 1%positive c H); reflexivity).
    reflexivity.
Qed.

(** ** The further properties on concrete inputs *)

(** X1, from the empty heap: a zero page size and a negative page are
    ignored, 25 is taken. *)
Lemma built_configurations_keep_positive_paging_witness :
  exists (h2 : gmap positive (Pkg.QueryListConfig.t Z Z)) c,
    Spec.run_ListOps (Some 1%positive)
      [Spec.OpPageSize 0; Spec.OpPage (-3); Spec.OpWheres (Some [MemStore.at_least 2]);
       Spec.OpPageSize 25]
      (<[1%positive := Spec.list_defaults]> ∅) = Ret (Some 1%positive, h2)
    /\ h2 !! 1%positive = Some c
    /\ 0 < Pkg.QueryListConfig.PageSize c
    /\ 0 < Pkg.QueryListConfig.Page c.
Proof.
  apply (built_configurations_keep_positive_paging ∅ 1%positive
           (<[1%positive := Spec.list_defaults]> ∅)).
  reflexivity.
Defined.

(** X2, on the configuration the constructor returns: three calls of
    [WithWheres], one of them with a nil slice, and one of
    [WithPreloads]. *)
Lemma sequence_builders_accumulate_witness :
  exists (h' : gmap positive (Pkg.QueryListConfig.t Z Z)) c',
    Spec.run_ListOps (Some 1%positive)
      [Spec.OpWheres (Some [MemStore.at_least 2]); Spec.OpWheres None;
       Spec.OpWheres (Some [MemStore.equals 5; MemStore.equals 7]);
       Spec.OpPreloads (Some ["Orders"])]
      (<[1%positive := Spec.list_defaults]> ∅) = Ret (Some 1%positive, h')
    /\ h' !! 1%positive = Some c'
    /\ range (Pkg.QueryListConfig.Wheres c')
       = [MemStore.at_least 2; MemStore.equals 5; MemStore.equals 7]
    /\ range (Pkg.QueryListConfig.Preloads c') = ["Orders"]
    /\ Pkg.QueryListConfig.PageSize c' = 10.
Proof.
  assert (Hl : (<[1%positive := Spec.list_defaults]> ∅
                : gmap positive (Pkg.QueryListConfig.t Z Z)) !! 1%positive
               = Some Spec.list_defaults) by reflexivity.
  destruct (sequence_builders_accumulate _ 1%positive Spec.list_defaults
              [Some [MemStore.at_least 2]; None; Some [MemStore.equals 5; MemStore.equals 7]]
              [Some ["Orders"]] [] Hl)
    as (h' & c' & Hrun & Hc & Hw & Hp & _ & Hs & _).
  exists h', c'. split; [exact Hrun|]. split; [exact Hc|].
  split; [exact Hw|]. split; [exact Hp|]. exact Hs.
Defined.


(** X6 on the table [1; 5; 7]: a malformed filter fails the lookup, and
    [Delete] returns the error after that single call. *)
Lemma Delete_stops_on_a_lookup_error_witness :
  Pkg.Delete (st:=MemStore.store) (Some []) (Some (MemStore.point_config [MemStore.malformed]))
    (MemStore.world [1; 5; 7])
  = Ret (Some MemStore.ErrSyntax,
         gorm.mkWorld ([1; 5; 7] : gorm.state MemStore.store)
           [gorm.CallFirst [gorm.Model; gorm.Where "v ~ ?" 0]] []).
Proof.
  apply (Delete_stops_on_a_lookup_error MemStore.store []
           (Some (MemStore.point_config [MemStore.malformed])) (MemStore.world [1; 5; 7])
           0 MemStore.ErrSyntax [1; 5; 7] eq_refl eq_refl).
Defined.

(** X7 on the table [1; 5; 7]: a preload the store does not know makes no
    difference to [Exist]. *)
Lemma Exist_ignores_preloads_witness :
  Pkg.Exist (st:=MemStore.store) (Some [])
    (Some (Pkg.QueryConfig.mk (Some [MemStore.at_least 6]) (Some ["Orders"])))
    (MemStore.world [1; 5; 7])
  = Pkg.Exist (st:=MemStore.store) (Some [])
      (Some (Pkg.QueryConfig.mk (Some [MemStore.at_least 6]) None))
      (MemStore.world [1; 5; 7]).
Proof.
  apply (Exist_ignores_preloads MemStore.store). reflexivity.
Defined.

(** X8 on the table [5; 7] with a hook that fails and hands its row back
    followed by one that doubles it: the rows come back as 10 and 14. *)
Lemma QueryList_rows_pass_through_the_hooks_witness :
  exists qr w',
    Pkg.QueryList (st:=MemStore.store) (Some []) (Some [])
      (Some (MemStore.list_config 10 1 []
               [MemStore.complaining_hook; MemStore.doubling_hook] []))
      (MemStore.world [5; 7]) = Ret ((Some qr, None), w')
    /\ QueryListResult.Data qr
       = map (Hooks.through [MemStore.complaining_hook; MemStore.doubling_hook]) [5; 7]
    /\ QueryListResult.Data qr = [10; 14].
Proof.
  eexists _, _. split; [cbv; reflexivity|].
  edestruct (QueryList_rows_pass_through_the_hooks MemStore.store [] []
               (MemStore.list_config 10 1 []
                  [MemStore.complaining_hook; MemStore.doubling_hook] [])
               (MemStore.world [5; 7])) as (_ & _ & Hdata & _);
    [cbv; reflexivity|].
  split; [exact Hdata | reflexivity].
Defined.

(** X9 on page 2 of size 2: the fetch ends with offset 2 and limit 2. *)
Lemma QueryList_offset_witness :
  exists qr w' pre,
    Pkg.QueryList (st:=MemStore.store) (Some []) (Some [])
      (Some (MemStore.list_config 2 2 [MemStore.at_least 2] [] []))
      (MemStore.world [1; 5; 7; 9; 11]) = Ret ((Some qr, None), w')
    /\ last (gorm.calls w') = Some (gorm.CallFind (pre ++ [gorm.Offset 2; gorm.Limit 2])).
Proof.
  edestruct (QueryList_offset MemStore.store [] []
               (MemStore.list_config 2 2 [MemStore.at_least 2] [] [])
               (MemStore.world [1; 5; 7; 9; 11])) as (pre & off & Hlast & _ & Hoff);
    [cbv; reflexivity|].
  eexists _, _, pre. split; [cbv; reflexivity|].
  rewrite Hlast, Hoff; [reflexivity | |]; cbv; (split; [discriminate | reflexivity]).
Defined.


(** X12 on the names ann and bob: a filter the store cannot parse fails
    the count, and the earlier [Exist] answers [false] without an error;
    with a filter it can parse the two iterations agree. *)
Lemma Earlier_Exist_hides_a_failed_count_witness :
  Earlier.Exist (st:=NameStore.store) (Some [])
    (Some (Earlier.QueryConfig.mk (Some [Where.mk "nick = ?" "bob"])))
    (NameStore.world ["ann"; "bob"] None)
  = Ret ((false, None),
         gorm.mkWorld (NameStore.mkState ["ann"; "bob"] None None : gorm.state NameStore.store)
           [gorm.CallCount [gorm.Model; gorm.Where "nick = ?" "bob"]] [])
  /\ Earlier.Exist (st:=NameStore.store) (Some []) (Some (NameStore.named "bob"))
       (NameStore.world ["ann"; "bob"] None)
     = Pkg.Exist (Some []) (Some (Compare.point_config (NameStore.named "bob")))
         (NameStore.world ["ann"; "bob"] None).
Proof.
  split.
  - apply (proj1 (Earlier_Exist_hides_a_failed_count NameStore.store []
                    (Some (Earlier.QueryConfig.mk (Some [Where.mk "nick = ?" "bob"])))
                    (NameStore.world ["ann"; "bob"] None))).
  - apply (proj2 (Earlier_Exist_hides_a_failed_count NameStore.store []
                    (Some (NameStore.named "bob")) (NameStore.world ["ann"; "bob"] None))).
    reflexivity.
Defined.

(** X13 on the names ann and bob.  Nobody is called eve, and a filter the
    store cannot parse fails the count: [Delete] returns no error after
    the count alone.  Bob is there at the count and gone at the lookup:
    [Delete] goes on as [pkg]'s does and asks the store to delete a nil
    row. *)
Lemma Earlier_Delete_counts_first_witness :
  Earlier.Delete (st:=NameStore.store) (Some []) (Some (NameStore.named "eve"))
    (NameStore.world ["ann"; "bob"] None)
  = Ret (None,
         gorm.mkWorld (NameStore.mkState ["ann"; "bob"] None None : gorm.state NameStore.store)
           [gorm.CallCount [gorm.Model; gorm.Where "name = ?" "eve"]] [])
  /\ Earlier.Delete (st:=NameStore.store) (Some [])
       (Some (Earlier.QueryConfig.mk (Some [Where.mk "nick = ?" "bob"])))
       (NameStore.world ["ann"; "bob"] None)
     = Ret (None,
            gorm.mkWorld (NameStore.mkState ["ann"; "bob"] None None : gorm.state NameStore.store)
              [gorm.CallCount [gorm.Model; gorm.Where "nick = ?" "bob"]] [])
  /\ Earlier.Delete (st:=NameStore.store) (Some []) (Some (NameStore.named "bob"))
       (NameStore.world ["ann"; "bob"] (Some (NameStore.Replace ["ann"])))
     = Ret (Some NameStore.ErrInvalidValue,
            gorm.mkWorld (NameStore.mkState ["ann"] None None : gorm.state NameStore.store)
              [gorm.CallCount [gorm.Model; gorm.Where "name = ?" "bob"];
               gorm.CallFirst [gorm.Model; gorm.Where "name = ?" "bob"];
               gorm.CallDelete [] None] []).
Proof.
  split; [|split].
  - apply (proj1 (Earlier_Delete_counts_first NameStore.store []
                    (Some (NameStore.named "eve")) (NameStore.world ["ann"; "bob"] None))
             0 None (NameStore.mkState ["ann"; "bob"] None None) eq_refl).
    lia.
  - apply (proj1 (Earlier_Delete_counts_first NameStore.store []
                    (Some (Earlier.QueryConfig.mk (Some [Where.mk "nick = ?" "bob"])))
                    (NameStore.world ["ann"; "bob"] None))
             0 (Some NameStore.ErrSyntax) (NameStore.mkState ["ann"; "bob"] None None) eq_refl).
    lia.
  - refine (eq_trans
              (proj2 (Earlier_Delete_counts_first NameStore.store []
                        (Some (NameStore.named "bob"))
                        (NameStore.world ["ann"; "bob"] (Some (NameStore.Replace ["ann"]))))
                 1 None (NameStore.mkState ["ann"] None None) eq_refl _) _);
      [lia | reflexivity].
Defined.

(** X14 on the heap the package starts with: the filter added through the
    first pointer sits in the one shared cell. *)
Lemma Earlier_constructors_share_one_configuration_witness :
  (p1 ← Earlier.NewQueryListConfig;
   p2 ← Earlier.NewQueryListConfig;
   _ ← Earlier.QueryListConfig.WithWheres p1 (Some [Where.mk "name = ?" "bob"]);
   mret (p1, p2)) Earlier.package_init_lists
  = Ret ((Some 1%positive, Some 1%positive),
         <[1%positive := Earlier.QueryListConfig.mk 10 1 Order.DESC "updated_at"
                           (Some [Where.mk "name = ?" "bob"])]>
           Earlier.package_init_lists).
Proof.
  apply (proj1 Earlier_constructors_share_one_configuration
           Earlier.package_init_lists
           (Earlier.QueryListConfig.mk 10 1 Order.DESC "updated_at" (Some []))).
  reflexivity.
Defined.
